(** * The PyKale tutorial notebooks, as programs over their external calls

    The repository holds two Jupyter notebooks:

    - [examples/bindingdb_deepdta/tutorial.ipynb]  (drug-target regression, DeepDTA)
    - [examples/digits_dann_lightn/tutorial.ipynb] (digit domain adaptation, DANN)

    Every code cell is straight-line Python that calls into yacs, torch,
    pytorch-lightning and kale.  The embedding below keeps the cells as they are
    written: one monadic definition per code cell, named after the cell id, the
    Python variables as bound names, and every call that leaves the notebook
    as an entry of the run's log.  What the called libraries answer is a
    parameter ([Library]); what the machine looks like is another ([Ambient]). *)

From Stdlib Require Import ZArith Lia.
From stdpp Require Import base strings gmap list pretty.

Local Open Scope string_scope.
Local Open Scope list_scope.

Set Warnings "-abstract-large-number,-register-all".

(** ** Python values and exceptions *)

(** Leaf values of a yacs configuration tree, also used for the keyword
    arguments the notebooks pass on. A float is kept as its printed form: the
    notebooks never compute with one. *)
Inductive Value : Type :=
| VInt (z : Z)
| VStr (s : string)
| VFloat (repr : string)
| VBool (b : bool)
| VNone
| VSeq (items : list Value).

(** A raised exception: the Python class name and its message. *)
Inductive Exn : Type :=
| Exception (class_name : string) (message : string).

Inductive Outcome (A : Type) : Type :=
| Done (a : A)
| Raised (e : Exn).
Arguments Done {A} a.
Arguments Raised {A} e.

Definition is_done {A : Type} (o : Outcome A) : bool :=
  match o with
  | Done _ => true
  | Raised _ => false
  end.

(** ** yacs configuration nodes

    Both [config.py] files build a two-level tree ([cfg.SECTION.KEY]); a key is
    the pair of the two names. *)

Abbreviation Key := (string * string)%type.

Record CfgNode : Type := mkCfg {
  entries : gmap (string * string) Value;
  frozen : bool
}.

(** [CfgNode.merge_from_other_cfg]: the other node wins where it has a value. *)
Definition merge_from_other_cfg (cfg : CfgNode) (other : gmap (string * string) Value) : CfgNode :=
  {| entries := other ∪ entries cfg; frozen := frozen cfg |}.

(** [CfgNode.freeze]. *)
Definition freeze (cfg : CfgNode) : CfgNode :=
  {| entries := entries cfg; frozen := true |}.

(** [CfgNode.__getattr__] on the path [SECTION.KEY]. *)
Definition getattr (cfg : CfgNode) (k : Key) : Outcome Value :=
  match entries cfg !! k with
  | Some v => Done v
  | None => Raised (Exception "AttributeError" (k.2))
  end.

(** [CfgNode.__setattr__]: refused on a frozen node. *)
Definition setattr (cfg : CfgNode) (k : Key) (v : Value) : Outcome CfgNode :=
  if frozen cfg
  then Raised (Exception "AttributeError" "Attempted to set a key, but CfgNode is immutable")
  else Done {| entries := <[k := v]> (entries cfg); frozen := frozen cfg |}.

(** ** torch datasets *)

Section Torch.
Variable Item : Type.

(** A map-style dataset: either one that holds its samples
    ([BindingDBDataset]) or a [torch.utils.data.Subset] of another. *)
Inductive Dataset : Type :=
| Full (items : list Item)
| Subset (dataset : Dataset) (indices : list nat).

(** [len(dataset)]. *)
Definition ds_len (d : Dataset) : nat :=
  match d with
  | Full items => length items
  | Subset _ indices => length indices
  end.

(** [dataset[i]] for [i >= 0]; [None] is Python's [IndexError]. *)
Fixpoint ds_getitem (d : Dataset) (i : nat) : option Item :=
  match d with
  | Full items => items !! i
  | Subset d' indices =>
      match indices !! i with
      | Some j => ds_getitem d' j
      | None => None
      end
  end.

(** [torch.utils.data.DataLoader(dataset=, shuffle=, batch_size=)]. *)
Record DataLoader : Type := mkLoader {
  dl_dataset : Dataset;
  dl_shuffle : bool;
  dl_batch_size : Value
}.

End Torch.

Arguments Full {Item} items.
Arguments Subset {Item} dataset indices.
Arguments ds_len {Item} d.
Arguments ds_getitem {Item} d i.
Arguments mkLoader {Item} _ _ _.
Arguments dl_dataset {Item} _.
Arguments dl_shuffle {Item} _.
Arguments dl_batch_size {Item} _.

(** ** pytorch-lightning objects, as the notebooks construct them *)

(** [TensorBoardLogger(save_dir, name=)]. *)
Record Logger : Type := mkLogger {
  save_dir : Value;
  logger_name : Value
}.

(** [ModelCheckpoint(filename=, monitor=, mode=)] and [TQDMProgressBar(refresh_rate)]. *)
Inductive Callback : Type :=
| ModelCheckpoint (filename : option string) (monitor : string) (mode : string)
| TQDMProgressBar (refresh_rate : Value).

(** [pl.Trainer(min_epochs=, max_epochs=, gpus=, logger=, callbacks=)]. *)
Record Trainer : Type := mkTrainer {
  min_epochs : Value;
  max_epochs : Value;
  gpus : Value;
  logger : Logger;
  callbacks : list Callback
}.

(** ** kale objects of the DANN notebook *)

(** [MultiDomainDatasets(source, target, config_weight_type=, config_size_type=,
    valid_split_ratio=, class_ids=)]. *)
Record MultiDomainDatasets (Access : Type) : Type := mkMultiDomain {
  md_source : Access;
  md_target : Access;
  config_weight_type : Value;
  config_size_type : Value;
  valid_split_ratio : Value;
  class_ids : list Z
}.
Arguments mkMultiDomain {Access} _ _ _ _ _ _.
Arguments md_source {Access} _.
Arguments md_target {Access} _.
Arguments config_weight_type {Access} _.
Arguments config_size_type {Access} _.
Arguments valid_split_ratio {Access} _.
Arguments class_ids {Access} _.

(** ** Reported test metrics *)

Inductive Metric : Type :=
| TestRMSE
| TestDomainAcc
| TestSourceAcc
| TestTargetAcc
| TestLoss.


Definition Report : Type := list (Metric * Value).

(** Modelled from the spec: what [trainer.test] reports for the regression
    task. The LightningModule that logs the test metrics (kale's DeepDTA
    trainer) is not among the source files; the spec gives "RMSE for the
    regression task". *)
Definition regression_report (rmse : Value) : Report :=
  [(TestRMSE, rmse)].

(** Modelled from the spec: what [trainer.test] reports for the classification
    task. The LightningModule that logs the test metrics (kale's domain
    adaptation trainer) is not among the source files; the spec gives
    "domain/source/target accuracy and loss for the classification task", and
    the notebook's closing cell lists the four outputs in this order. *)
Definition classification_report (domain_acc source_acc target_acc loss : Value) : Report :=
  [(TestDomainAcc, domain_acc); (TestSourceAcc, source_acc);
   (TestTargetAcc, target_acc); (TestLoss, loss)].

(** ** The world outside the notebook *)

Section World.
Context {Item Rng Model Access : Type}.

(** Every call that leaves the notebook. *)
Inductive Call : Type :=
| GetIPython
| Shell (line : string)
| MagicCd (dir : string)
| Import (modules : list string)
| GetCfgDefaults
| MergeFromFile (cfg_filename : string)
| Freeze
| SetSeed (seed : Value)
| CudaIsAvailable
| NewBindingDBDataset (name : Value) (split : string) (path : Value)
| Randperm (n : nat)
| NewSubset (dataset : Dataset Item) (indices : list nat)
| NewDataLoader (loader : DataLoader Item)
| GetModel (cfg : CfgNode)
| NewDigitDataset (name : string)
| GetSourceTarget (source target : string) (root : Value)
| NewMultiDomainDatasets (dataset : MultiDomainDatasets Access)
| GetModelDA (cfg : CfgNode) (dataset : MultiDomainDatasets Access) (num_channels : Z)
| NewTensorBoardLogger (lg : Logger)
| NewCallback (cb : Callback)
| NewTrainer (tr : Trainer)
| Fit (tr : Trainer) (model : Model) (train val : option (DataLoader Item))
| Test (tr : Trainer) (model : Model) (test : option (DataLoader Item)).

(** What a cell leaves as output below it. *)
Inductive Shown : Type :=
| ShownValue (v : Value)
| ShownReport (r : Report).

(** One entry of a run's log. *)
Inductive Event : Type :=
| Called (c : Call)
| Raise (e : Exn)
| CfgRead (k : Key) (found : option Value)
| CfgWrite (k : Key) (v : Value)
| Printed (text : string)
| PrintedCfg (cfg : CfgNode)
| Display (out : Shown)
| Timing.

(** The answers of the libraries the notebooks call: yacs and the example's
    [config.py], torch, pytorch-lightning, kale and the example's [model.py],
    and the two [str] methods used. None of them is part of the notebooks. *)
Record Library : Type := mkLibrary {
  import_error : list string -> option Exn;
  defaults : gmap (string * string) Value;
  load_cfg : string -> Outcome (gmap (string * string) Value);
  merge_rejects : gmap (string * string) Value -> gmap (string * string) Value -> option Exn;
  manual_seed : Value -> Outcome Rng;
  randperm : Rng -> nat -> list nat * Rng;
  binding_db : Value -> string -> Value -> Outcome (list Item);
  data_loader_error : DataLoader Item -> option Exn;
  get_model : CfgNode -> list (Key * Value) * Outcome Model;
  digit_dataset : string -> Outcome string;
  get_source_target : string -> string -> Value -> Outcome (Access * Access * Z);
  multi_domain_error : MultiDomainDatasets Access -> option Exn;
  get_model_da : CfgNode -> MultiDomainDatasets Access -> Z ->
                 list (Key * Value) * Outcome (Model * list (string * Value));
  logger_error : Logger -> option Exn;
  callback_error : Callback -> option Exn;
  trainer_error : Trainer -> option Exn;
  fit : Trainer -> Model -> option (DataLoader Item) -> option (DataLoader Item) -> Outcome nat;
  test_regression : Trainer -> Model -> DataLoader Item -> Outcome Value;
  test_classification : Trainer -> Model -> Outcome (Value * Value * Value * Value);
  str_upper : string -> string;
  str_format : string -> Value -> string
}.

(** The machine and session a run starts in. *)
Record Ambient : Type := mkAmbient {
  on_colab : bool;
  cuda_available : bool;
  gen0 : Rng
}.

(** ** Runs *)

(** The state a run threads: torch's global generator and the log, newest
    entry first. *)
Record RunState : Type := mkRun {
  gen : Rng;
  log : list Event
}.

Definition M (A : Type) : Type := RunState -> Outcome A * RunState.

Definition ret {A : Type} (a : A) : M A := fun s => (Done a, s).

Definition bind {A B : Type} (m : M A) (f : A -> M B) : M B :=
  fun s => match m s with
           | (Done a, s') => f a s'
           | (Raised e, s') => (Raised e, s')
           end.

Definition emit (ev : Event) : M unit :=
  fun s => (Done tt, {| gen := gen s; log := ev :: log s |}).

(** An exception leaves the cell, and the run, at once: nothing in either
    notebook catches one. *)
Definition raise {A : Type} (e : Exn) : M A :=
  fun s => (Raised e, {| gen := gen s; log := Raise e :: log s |}).

Definition lift {A : Type} (o : Outcome A) : M A :=
  match o with
  | Done a => ret a
  | Raised e => raise e
  end.

Definition get_gen : M Rng := fun s => (Done (gen s), s).

Definition put_gen (g : Rng) : M unit :=
  fun s => (Done tt, {| gen := g; log := log s |}).

(** The library the run talks to. *)
Variable L : Library.

(** *** Primitive steps *)

(** A call whose answer the library gives. *)
Definition call {A : Type} (c : Call) (answer : Outcome A) : M A :=
  bind (emit (Called c)) (fun _ => lift answer).

(** A constructor call: the library may refuse the arguments, otherwise the
    object is what was passed. *)
Definition construct {A : Type} (c : Call) (refused : option Exn) (obj : A) : M A :=
  call c (match refused with
          | Some e => Raised e
          | None => Done obj
          end).

(** [print(text)]. *)
Definition print (text : string) : M unit := emit (Printed text).

(** A [!command] line: IPython runs it in a subshell and goes on whatever
    its exit status. *)
Definition shell (line : string) : M unit := emit (Called (Shell line)).

(** The [%cd] magic, which reports a missing directory without raising. *)
Definition magic_cd (dir : string) : M unit := emit (Called (MagicCd dir)).

(** [%time stmt]: the statement, then the timing line. *)
Definition magic_time {A : Type} (stmt : M A) : M A :=
  bind stmt (fun a => bind (emit Timing) (fun _ => ret a)).

(** [cfg.SECTION.KEY]. *)
Definition cfg_get (cfg : CfgNode) (section key : string) : M Value :=
  bind (emit (CfgRead (section, key) (entries cfg !! (section, key))))
       (fun _ => lift (getattr cfg (section, key))).

(** [get_cfg_defaults()]: a fresh, unfrozen clone of the example's defaults. *)
Definition get_cfg_defaults : M CfgNode :=
  call GetCfgDefaults (Done {| entries := defaults L; frozen := false |}).

(** [cfg.merge_from_file(cfg_filename)]: load the YAML file, let yacs validate
    it against the node, merge. *)
Definition merge_from_file (cfg : CfgNode) (cfg_filename : string) : M CfgNode :=
  call (MergeFromFile cfg_filename)
       (match load_cfg L cfg_filename with
        | Raised e => Raised e
        | Done other =>
            match merge_rejects L (entries cfg) other with
            | Some e => Raised e
            | None => Done (merge_from_other_cfg cfg other)
            end
        end).

(** [cfg.freeze()]. *)
Definition cfg_freeze (cfg : CfgNode) : M CfgNode :=
  call Freeze (Done (freeze cfg)).

(** What a callee that was handed the node does to it: a series of attribute
    assignments, each of which yacs refuses once the node is frozen (whether
    the callee lets that exception escape or not, the node is the same
    afterwards). One log entry for each assignment that went through. *)
Fixpoint callee_writes (cfg : CfgNode) (writes : list (Key * Value)) : M CfgNode :=
  match writes with
  | [] => ret cfg
  | (k, v) :: rest =>
      match setattr cfg k v with
      | Done cfg' => bind (emit (CfgWrite k v)) (fun _ => callee_writes cfg' rest)
      | Raised _ => callee_writes cfg rest
      end
  end.

(** [set_seed(seed)]. kale.utils.seed is not among the source files; the DANN
    notebook says of the call that "setting the seed ... ensures
    reproducibility": it leaves torch's global generator in a state that the
    library derives from the seed alone. *)
Definition set_seed (seed : Value) : M unit :=
  bind (call (SetSeed seed) (manual_seed L seed)) put_gen.

(** [torch.randperm(n)], drawn from the global generator. *)
Definition torch_randperm (n : nat) : M (list nat) :=
  bind get_gen (fun g =>
  bind (emit (Called (Randperm n))) (fun _ =>
  bind (put_gen (randperm L g n).2) (fun _ =>
  ret (randperm L g n).1))).

(** [torch.cuda.is_available()]. *)
Definition cuda_is_available (a : Ambient) : M bool :=
  bind (emit (Called CudaIsAvailable)) (fun _ => ret (cuda_available a)).

(** ['google.colab' in str(get_ipython())]. *)
Definition in_colab (a : Ambient) : M bool :=
  bind (emit (Called GetIPython)) (fun _ => ret (on_colab a)).

(** An import cell. *)
Definition import_modules (modules : list string) : M unit :=
  construct (Import modules) (import_error L modules) tt.

(** An expression that ends a cell is shown below it. *)
Definition display (out : Shown) : M unit := emit (Display out).

Notation "'let*' x ':=' m 'in' k" := (bind m (fun x => k))
  (at level 10, x pattern, m at level 100, k at level 200).

(** ** examples/bindingdb_deepdta/tutorial.ipynb *)

(** The notebook's global names once every cell has run. *)
Record DeepDTAGlobals : Type := mkDeepDTAGlobals {
  dta_cfg_path : string;
  dta_train_subset_size : nat;
  dta_valid_subset_size : nat;
  dta_test_subset_size : nat;
  dta_cfg : CfgNode;
  dta_device : string;
  dta_gpus : Value;
  dta_train_size : nat;
  dta_valid_size : nat;
  dta_test_size : nat;
  dta_train_sample_indices : list nat;
  dta_valid_sample_indices : list nat;
  dta_test_sample_indices : list nat;
  dta_train_dataset : Dataset Item;
  dta_valid_dataset : Dataset Item;
  dta_test_dataset : Dataset Item;
  dta_train_loader : DataLoader Item;
  dta_valid_loader : DataLoader Item;
  dta_test_loader : DataLoader Item;
  dta_model : Model;
  dta_tb_logger : Logger;
  dta_checkpoint_callback : Callback;
  dta_trainer : Trainer;
  dta_out : Report
}.

(** Cell d2c44298: Colab detection and package installation. *)
Definition cell_d2c44298 (a : Ambient) : M unit :=
  let* colab := in_colab a in
  if colab then
    let* _ := print "Running on CoLab" in
    let* _ := shell "pip uninstall --yes imgaug && pip uninstall --yes albumentations && pip install git+https://github.com/aleju/imgaug.git" in
    let* _ := shell "pip install rdkit-pypi torchaudio torch-scatter torch-sparse torch-cluster torch-spline-conv torch-geometric -f https://data.pyg.org/whl/torch-1.10.0+cu113.html" in
    let* _ := shell "pip install git+https://github.com/pykale/pykale.git" in
    let* _ := shell "git clone https://github.com/pykale/pykale.git" in
    magic_cd "pykale/examples/bindingdb_deepdta"
  else
    print "Not running on CoLab".

(** Cell 83b926d3: imports. *)
Definition deepdta_modules : list string :=
  ["pytorch_lightning"; "torch"; "config"; "model";
   "pytorch_lightning.callbacks"; "pytorch_lightning.loggers";
   "torch.utils.data"; "kale.loaddata.tdc_datasets"; "kale.utils.seed"].

Definition cell_83b926d3 : M unit := import_modules deepdta_modules.

(** Cell c81a024e: configuration and seed. *)
Definition cell_c81a024e : M (string * (nat * nat * nat) * CfgNode) :=
  let cfg_path := "./configs/tutorial.yaml" in
  let '(train_subset_size, valid_subset_size, test_subset_size) := (8000, 1000, 1000)%nat in
  let* cfg := get_cfg_defaults in
  let* cfg := merge_from_file cfg cfg_path in
  let* cfg := cfg_freeze cfg in
  let* _ := emit (PrintedCfg cfg) in
  let* seed := cfg_get cfg "SOLVER" "SEED" in
  let* _ := set_seed seed in
  ret (cfg_path, (train_subset_size, valid_subset_size, test_subset_size), cfg).

(** Cell 716a4b15: device selection. *)
Definition cell_716a4b15 (a : Ambient) : M (string * Value) :=
  let* available := cuda_is_available a in
  let device := if available then "cuda" else "cpu" in
  let* _ := print ("Using: " +:+ device) in
  let gpus := if String.eqb device "cuda" then VInt 1 else VInt 0 in
  ret (device, gpus).

(** [BindingDBDataset(name=cfg.DATASET.NAME, split=, path=cfg.DATASET.PATH)]. *)
Definition new_binding_db_dataset (cfg : CfgNode) (split : string) : M (Dataset Item) :=
  let* name := cfg_get cfg "DATASET" "NAME" in
  let* path := cfg_get cfg "DATASET" "PATH" in
  let* items := call (NewBindingDBDataset name split path) (binding_db L name split path) in
  ret (Full items).

(** [torch.randperm(size)[:subset_size].tolist()]. *)
Definition sample_indices (size subset_size : nat) : M (list nat) :=
  let* perm := torch_randperm size in
  ret (take subset_size perm).

(** [Subset(dataset, indices)]. *)
Definition new_subset (dataset : Dataset Item) (indices : list nat) : M (Dataset Item) :=
  let* _ := emit (Called (NewSubset dataset indices)) in
  ret (Subset dataset indices).

(** Cell ab06bd86: the three splits and their random subsets. *)
Definition cell_ab06bd86 (cfg : CfgNode) (subset_sizes : nat * nat * nat)
  : M ((nat * nat * nat) * (list nat * list nat * list nat)
       * (Dataset Item * Dataset Item * Dataset Item)) :=
  let '(train_subset_size, valid_subset_size, test_subset_size) := subset_sizes in
  let* train_dataset := new_binding_db_dataset cfg "train" in
  let* valid_dataset := new_binding_db_dataset cfg "valid" in
  let* test_dataset := new_binding_db_dataset cfg "test" in
  let '(train_size, valid_size, test_size) :=
    (ds_len train_dataset, ds_len valid_dataset, ds_len test_dataset) in
  let* train_sample_indices := sample_indices train_size train_subset_size in
  let* valid_sample_indices := sample_indices valid_size valid_subset_size in
  let* test_sample_indices := sample_indices test_size test_subset_size in
  let* train_dataset := new_subset train_dataset train_sample_indices in
  let* valid_dataset := new_subset valid_dataset valid_sample_indices in
  let* test_dataset := new_subset test_dataset test_sample_indices in
  ret ((train_size, valid_size, test_size),
       (train_sample_indices, valid_sample_indices, test_sample_indices),
       (train_dataset, valid_dataset, test_dataset)).

(** Cell 1b68a11c: shows [cfg.DATASET.PATH]. *)
Definition cell_1b68a11c (cfg : CfgNode) : M unit :=
  let* path := cfg_get cfg "DATASET" "PATH" in
  display (ShownValue path).

(** [DataLoader(dataset=, shuffle=True, batch_size=cfg.SOLVER.KEY)]. *)
Definition new_data_loader (cfg : CfgNode) (dataset : Dataset Item) (batch_key : string)
  : M (DataLoader Item) :=
  let* batch_size := cfg_get cfg "SOLVER" batch_key in
  let loader := {| dl_dataset := dataset; dl_shuffle := true; dl_batch_size := batch_size |} in
  construct (NewDataLoader loader) (data_loader_error L loader) loader.

(** Cell 557f7ea3: the three loaders. *)
Definition cell_557f7ea3 (cfg : CfgNode) (datasets : Dataset Item * Dataset Item * Dataset Item)
  : M (DataLoader Item * DataLoader Item * DataLoader Item) :=
  let '(train_dataset, valid_dataset, test_dataset) := datasets in
  let* train_loader := new_data_loader cfg train_dataset "TRAIN_BATCH_SIZE" in
  let* valid_loader := new_data_loader cfg valid_dataset "TEST_BATCH_SIZE" in
  let* test_loader := new_data_loader cfg test_dataset "TEST_BATCH_SIZE" in
  ret (train_loader, valid_loader, test_loader).

(** Cell 4d3d9332: [model = get_model(cfg)]. The callee holds the very node
    the notebook holds, so what it assigns there the notebook sees. *)
Definition cell_4d3d9332 (cfg : CfgNode) : M (CfgNode * Model) :=
  let* _ := emit (Called (GetModel cfg)) in
  let* cfg' := callee_writes cfg (get_model L cfg).1 in
  let* model := lift (get_model L cfg).2 in
  ret (cfg', model).

(** Cell c6d1aea7: the TensorBoard logger. *)
Definition cell_c6d1aea7 (cfg : CfgNode) : M Logger :=
  let* name := cfg_get cfg "DATASET" "NAME" in
  let tb_logger := {| save_dir := VStr "tb_logs"; logger_name := name |} in
  construct (NewTensorBoardLogger tb_logger) (logger_error L tb_logger) tb_logger.

(** Cell 5b484f26: checkpoint callback and trainer. *)
Definition cell_5b484f26 (cfg : CfgNode) (gpus : Value) (tb_logger : Logger)
  : M (Callback * Trainer) :=
  let cb := ModelCheckpoint None "valid_loss" "min" in
  let* checkpoint_callback := construct (NewCallback cb) (callback_error L cb) cb in
  let* min_epochs := cfg_get cfg "SOLVER" "MIN_EPOCHS" in
  let* max_epochs := cfg_get cfg "SOLVER" "MAX_EPOCHS" in
  let tr := {| min_epochs := min_epochs; max_epochs := max_epochs; gpus := gpus;
               logger := tb_logger; callbacks := [checkpoint_callback] |} in
  let* trainer := construct (NewTrainer tr) (trainer_error L tr) tr in
  ret (checkpoint_callback, trainer).

(** Cell b8c5c3c1: [%time trainer.fit(model, train_dataloader=, val_dataloaders=)]. *)
Definition cell_b8c5c3c1 (trainer : Trainer) (model : Model)
    (train_loader valid_loader : DataLoader Item) : M nat :=
  magic_time (call (Fit trainer model (Some train_loader) (Some valid_loader))
                   (fit L trainer model (Some train_loader) (Some valid_loader))).

(** Cell 3bda8d74: [trainer.test(test_dataloaders=test_loader)], shown. The
    trainer tests the model it was fitted with. *)
Definition cell_3bda8d74 (trainer : Trainer) (model : Model) (test_loader : DataLoader Item)
  : M Report :=
  let* rmse := call (Test trainer model (Some test_loader))
                    (test_regression L trainer model test_loader) in
  let out := regression_report rmse in
  let* _ := display (ShownReport out) in
  ret out.

(** Run All. *)
Definition deepdta_notebook (a : Ambient) : M DeepDTAGlobals :=
  let* _ := cell_d2c44298 a in
  let* _ := cell_83b926d3 in
  let* (cfg_path, (train_subset_size, valid_subset_size, test_subset_size), cfg) :=
    cell_c81a024e in
  let* (device, gpus) := cell_716a4b15 a in
  let* ((train_size, valid_size, test_size),
        (train_sample_indices, valid_sample_indices, test_sample_indices),
        (train_dataset, valid_dataset, test_dataset)) :=
    cell_ab06bd86 cfg (train_subset_size, valid_subset_size, test_subset_size) in
  let* _ := cell_1b68a11c cfg in
  let* (train_loader, valid_loader, test_loader) :=
    cell_557f7ea3 cfg (train_dataset, valid_dataset, test_dataset) in
  let* (cfg, model) := cell_4d3d9332 cfg in
  let* tb_logger := cell_c6d1aea7 cfg in
  let* (checkpoint_callback, trainer) := cell_5b484f26 cfg gpus tb_logger in
  let* _ := cell_b8c5c3c1 trainer model train_loader valid_loader in
  let* out := cell_3bda8d74 trainer model test_loader in
  ret {| dta_cfg_path := cfg_path;
         dta_train_subset_size := train_subset_size;
         dta_valid_subset_size := valid_subset_size;
         dta_test_subset_size := test_subset_size;
         dta_cfg := cfg;
         dta_device := device;
         dta_gpus := gpus;
         dta_train_size := train_size;
         dta_valid_size := valid_size;
         dta_test_size := test_size;
         dta_train_sample_indices := train_sample_indices;
         dta_valid_sample_indices := valid_sample_indices;
         dta_test_sample_indices := test_sample_indices;
         dta_train_dataset := train_dataset;
         dta_valid_dataset := valid_dataset;
         dta_test_dataset := test_dataset;
         dta_train_loader := train_loader;
         dta_valid_loader := valid_loader;
         dta_test_loader := test_loader;
         dta_model := model;
         dta_tb_logger := tb_logger;
         dta_checkpoint_callback := checkpoint_callback;
         dta_trainer := trainer;
         dta_out := out |}.

(** ** examples/digits_dann_lightn/tutorial.ipynb *)

(** The notebook's global names once every cell has run. *)
Record DANNGlobals : Type := mkDANNGlobals {
  da_cfg_path : string;
  da_cfg : CfgNode;
  da_device : string;
  da_gpus : Value;
  da_source : Access;
  da_target : Access;
  da_num_channels : Z;
  da_class_subset : list Z;
  da_dataset : MultiDomainDatasets Access;
  da_seed : Value;
  da_model : Model;
  da_train_params : list (string * Value);
  da_tb_logger : Logger;
  da_checkpoint_callback : Callback;
  da_progress_bar : Callback;
  da_trainer : Trainer;
  da_out : Report
}.

(** Cell aed40d82: Colab detection and package installation. *)
Definition cell_aed40d82 (a : Ambient) : M unit :=
  let* colab := in_colab a in
  if colab then
    let* _ := print "Running on CoLab" in
    let* _ := shell "pip uninstall --yes imgaug && pip uninstall --yes albumentations && pip install git+https://github.com/aleju/imgaug.git" in
    let* _ := shell "pip install git+https://github.com/pykale/pykale.git" in
    let* _ := shell "git clone https://github.com/pykale/pykale.git" in
    magic_cd "pykale/examples/digits_dann_lightn"
  else
    print "Not running on CoLab".

(** Cell fa4e8582: imports. *)
Definition dann_modules : list string :=
  ["logging"; "os"; "config"; "numpy"; "pytorch_lightning"; "torch";
   "torch.utils.data"; "torch.utils.data"; "torchvision"; "model";
   "pytorch_lightning.callbacks"; "pytorch_lightning.loggers";
   "kale.loaddata.image_access"; "kale.loaddata.multi_domain"; "kale.utils.seed"].

Definition cell_fa4e8582 : M unit := import_modules dann_modules.

(** Cell f8add5b8: configuration. *)
Definition cell_f8add5b8 : M (string * CfgNode) :=
  let cfg_path := "./configs/tutorial.yaml" in
  let* cfg := get_cfg_defaults in
  let* cfg := merge_from_file cfg cfg_path in
  let* cfg := cfg_freeze cfg in
  let* _ := emit (PrintedCfg cfg) in
  ret (cfg_path, cfg).

(** Cell 66e98e83: device selection. *)
Definition cell_66e98e83 (a : Ambient) : M (string * Value) :=
  let* available := cuda_is_available a in
  let device := if available then "cuda" else "cpu" in
  let* _ := print ("Using: " +:+ device) in
  let gpus := if String.eqb device "cuda" then VInt 1 else VNone in
  ret (device, gpus).

(** [DigitDataset(cfg.DATASET.KEY.upper())]: the enum member of that name. *)
Definition digit_dataset_of (cfg : CfgNode) (key : string) : M string :=
  let* v := cfg_get cfg "DATASET" key in
  let* name := match v with
               | VStr s => ret (str_upper L s)
               | _ => raise (Exception "AttributeError" "upper")
               end in
  call (NewDigitDataset name) (digit_dataset L name).

(** Cell e1177e66: source and target datasets, restricted to three classes. *)
Definition cell_e1177e66 (cfg : CfgNode)
  : M (Access * Access * Z * list Z * MultiDomainDatasets Access) :=
  let* source_name := digit_dataset_of cfg "SOURCE" in
  let* target_name := digit_dataset_of cfg "TARGET" in
  let* root := cfg_get cfg "DATASET" "ROOT" in
  let* (source, target, num_channels) :=
    call (GetSourceTarget source_name target_name root)
         (get_source_target L source_name target_name root) in
  let class_subset := [1; 3; 8]%Z in
  let* weight_type := cfg_get cfg "DATASET" "WEIGHT_TYPE" in
  let* size_type := cfg_get cfg "DATASET" "SIZE_TYPE" in
  let* split_ratio := cfg_get cfg "DATASET" "VALID_SPLIT_RATIO" in
  let md := {| md_source := source; md_target := target;
               config_weight_type := weight_type; config_size_type := size_type;
               valid_split_ratio := split_ratio; class_ids := class_subset |} in
  let* dataset := construct (NewMultiDomainDatasets md) (multi_domain_error L md) md in
  ret (source, target, num_channels, class_subset, dataset).

(** Cell daec6200: seed. *)
Definition cell_daec6200 (cfg : CfgNode) : M Value :=
  let* seed := cfg_get cfg "SOLVER" "SEED" in
  let* _ := set_seed seed in
  ret seed.

(** Cell 4d8e3976: [%time model, train_params = get_model(cfg, dataset, num_channels)]. *)
Definition cell_4d8e3976 (cfg : CfgNode) (dataset : MultiDomainDatasets Access)
    (num_channels : Z) : M (CfgNode * (Model * list (string * Value))) :=
  magic_time (
    let* _ := emit (Called (GetModelDA cfg dataset num_channels)) in
    let* cfg' := callee_writes cfg (get_model_da L cfg dataset num_channels).1 in
    let* built := lift (get_model_da L cfg dataset num_channels).2 in
    ret (cfg', built)).

(** Cell 2e4c07f3: the TensorBoard logger. *)
Definition cell_2e4c07f3 (cfg : CfgNode) (seed : Value) : M Logger :=
  let* tb_dir := cfg_get cfg "OUTPUT" "TB_DIR" in
  let tb_logger := {| save_dir := tb_dir;
                      logger_name := VStr (str_format L "seed{}" seed) |} in
  construct (NewTensorBoardLogger tb_logger) (logger_error L tb_logger) tb_logger.

(** Cell c4d36430: the checkpoint callback. *)
Definition cell_c4d36430 : M Callback :=
  let cb := ModelCheckpoint (Some "{epoch}-{step}-{valid_loss:.4f}") "valid_loss" "min" in
  construct (NewCallback cb) (callback_error L cb) cb.

(** Cell cef2ec46: the progress bar. *)
Definition cell_cef2ec46 (cfg : CfgNode) : M Callback :=
  let* refresh := cfg_get cfg "OUTPUT" "PB_FRESH" in
  let cb := TQDMProgressBar refresh in
  construct (NewCallback cb) (callback_error L cb) cb.

(** Cell 6dcfb7a3: the trainer. *)
Definition cell_6dcfb7a3 (cfg : CfgNode) (gpus : Value) (tb_logger : Logger)
    (checkpoint_callback progress_bar : Callback) : M Trainer :=
  let* min_epochs := cfg_get cfg "SOLVER" "MIN_EPOCHS" in
  let* max_epochs := cfg_get cfg "SOLVER" "MAX_EPOCHS" in
  let tr := {| min_epochs := min_epochs; max_epochs := max_epochs; gpus := gpus;
               logger := tb_logger; callbacks := [checkpoint_callback; progress_bar] |} in
  construct (NewTrainer tr) (trainer_error L tr) tr.

(** Cell f1e7a5d3: [%time trainer.fit(model)]. *)
Definition cell_f1e7a5d3 (trainer : Trainer) (model : Model) : M nat :=
  magic_time (call (Fit trainer model None None) (fit L trainer model None None)).

(** Cell 5f59fcee: [%time trainer.test()], shown. The trainer tests the model
    it was fitted with. *)
Definition cell_5f59fcee (trainer : Trainer) (model : Model) : M Report :=
  let* out := magic_time (
    let* (domain_acc, source_acc, target_acc, loss) :=
      call (Test trainer model None) (test_classification L trainer model) in
    ret (classification_report domain_acc source_acc target_acc loss)) in
  let* _ := display (ShownReport out) in
  ret out.

(** Run All. *)
Definition dann_notebook (a : Ambient) : M DANNGlobals :=
  let* _ := cell_aed40d82 a in
  let* _ := cell_fa4e8582 in
  let* (cfg_path, cfg) := cell_f8add5b8 in
  let* (device, gpus) := cell_66e98e83 a in
  let* (source, target, num_channels, class_subset, dataset) := cell_e1177e66 cfg in
  let* seed := cell_daec6200 cfg in
  let* (cfg, (model, train_params)) := cell_4d8e3976 cfg dataset num_channels in
  let* tb_logger := cell_2e4c07f3 cfg seed in
  let* checkpoint_callback := cell_c4d36430 in
  let* progress_bar := cell_cef2ec46 cfg in
  let* trainer := cell_6dcfb7a3 cfg gpus tb_logger checkpoint_callback progress_bar in
  let* _ := cell_f1e7a5d3 trainer model in
  let* out := cell_5f59fcee trainer model in
  ret {| da_cfg_path := cfg_path;
         da_cfg := cfg;
         da_device := device;
         da_gpus := gpus;
         da_source := source;
         da_target := target;
         da_num_channels := num_channels;
         da_class_subset := class_subset;
         da_dataset := dataset;
         da_seed := seed;
         da_model := model;
         da_train_params := train_params;
         da_tb_logger := tb_logger;
         da_checkpoint_callback := checkpoint_callback;
         da_progress_bar := progress_bar;
         da_trainer := trainer;
         da_out := out |}.

(** *** A run and what it leaves *)

Definition start (a : Ambient) : RunState := {| gen := gen0 a; log := [] |}.

(** The log of a run in the order things happened. *)
Definition trace {A : Type} (r : Outcome A * RunState) : list Event := rev (log r.2).

Definition run_deepdta (a : Ambient) : Outcome DeepDTAGlobals * RunState :=
  deepdta_notebook a (start a).

Definition run_dann (a : Ambient) : Outcome DANNGlobals * RunState :=
  dann_notebook a (start a).

End World.

(** ** Stages of a run *)

Inductive Stage : Type :=
| EnvironmentCheck
| ConfigLoad
| DatasetBuild
| ModelBuild
| LoggerTrainerSetup
| FitStage
| TestStage.

#[global] Instance Stage_eq_dec : EqDecision Stage.
Proof. solve_decision. Defined.

Section Observations.
Context {Item Model Access : Type}.

(** The stage a call belongs to. Seeding the generator and asking for CUDA
    belong to none of the seven; neither does the import cell. *)
Definition stage_of_call (c : @Call Item Model Access) : option Stage :=
  match c with
  | GetIPython | Shell _ | MagicCd _ => Some EnvironmentCheck
  | Import _ => None
  | GetCfgDefaults | MergeFromFile _ | Freeze => Some ConfigLoad
  | SetSeed _ | CudaIsAvailable => None
  | NewBindingDBDataset _ _ _ | Randperm _ | NewSubset _ _ | NewDataLoader _
  | NewDigitDataset _ | GetSourceTarget _ _ _ | NewMultiDomainDatasets _ => Some DatasetBuild
  | GetModel _ | GetModelDA _ _ _ => Some ModelBuild
  | NewTensorBoardLogger _ | NewCallback _ | NewTrainer _ => Some LoggerTrainerSetup
  | Fit _ _ _ _ => Some FitStage
  | Test _ _ _ => Some TestStage
  end.

Definition stage_of (ev : @Event Item Model Access) : option Stage :=
  match ev with
  | Called c => stage_of_call c
  | _ => None
  end.

(** Consecutive calls of one stage count once. *)
Fixpoint collapse (l : list Stage) : list Stage :=
  match l with
  | [] => []
  | x :: rest =>
      match rest with
      | [] => [x]
      | y :: _ => if decide (x = y) then collapse rest else x :: collapse rest
      end
  end.

Definition stage_sequence (tr : list (@Event Item Model Access)) : list Stage :=
  collapse (omap stage_of tr).

Definition is_fit (ev : @Event Item Model Access) : bool :=
  match ev with
  | Called (Fit _ _ _ _) => true
  | _ => false
  end.

Definition is_test (ev : @Event Item Model Access) : bool :=
  match ev with
  | Called (Test _ _ _) => true
  | _ => false
  end.

(** The configuration keys a run read, with what each read found. *)
Definition reads (tr : list (@Event Item Model Access)) : list (Key * option Value) :=
  omap (fun ev => match ev with
                  | CfgRead k found => Some (k, found)
                  | _ => None
                  end) tr.

(** The attribute assignments that went through on the configuration node. *)
Definition writes (tr : list (@Event Item Model Access)) : list (Key * Value) :=
  omap (fun ev => match ev with
                  | CfgWrite k v => Some (k, v)
                  | _ => None
                  end) tr.

(** The exceptions raised during a run. *)
Definition raised (tr : list (@Event Item Model Access)) : list Exn :=
  omap (fun ev => match ev with
                  | Raise e => Some e
                  | _ => None
                  end) tr.

(** A call out of the notebook or a configuration read: the steps that can
    raise. *)
Definition is_operation (ev : @Event Item Model Access) : bool :=
  match ev with
  | Called _ | CfgRead _ _ => true
  | _ => false
  end.

(** What happened before [cfg.freeze()]. *)
Fixpoint before_freeze (tr : list (@Event Item Model Access)) : list (@Event Item Model Access) :=
  match tr with
  | [] => []
  | Called Freeze :: _ => []
  | ev :: rest => ev :: before_freeze rest
  end.

(** What happened before, and after, the first [set_seed] call. *)
Fixpoint before_seed (tr : list (@Event Item Model Access)) : list (@Event Item Model Access) :=
  match tr with
  | [] => []
  | Called (SetSeed _) :: _ => []
  | ev :: rest => ev :: before_seed rest
  end.

Fixpoint after_seed (tr : list (@Event Item Model Access)) : list (@Event Item Model Access) :=
  match tr with
  | [] => []
  | Called (SetSeed _) :: rest => rest
  | _ :: rest => after_seed rest
  end.

Definition is_set_seed (ev : @Event Item Model Access) : bool :=
  match ev with
  | Called (SetSeed _) => true
  | _ => false
  end.

Definition is_randperm (ev : @Event Item Model Access) : bool :=
  match ev with
  | Called (Randperm _) => true
  | _ => false
  end.

Definition in_stage (st : Stage) (ev : @Event Item Model Access) : bool :=
  bool_decide (stage_of ev = Some st).

End Observations.

(** The order of the stages the two tutorials go through. *)
Definition all_stages : list Stage :=
  [EnvironmentCheck; ConfigLoad; DatasetBuild; ModelBuild; LoggerTrainerSetup;
   FitStage; TestStage].

(** ** The keys of the YAML interface *)

(** The kinds of configuration keys the interface description names. *)
Inductive KeyKind : Type :=
| DatasetPathOrName
| BatchSize
| SeedKey
| EpochBound
| OutputDirectory.

(** The recognised keys, following the interface description: "dataset
    path/name, batch sizes, seed, min/max epoch counts, and output
    directories". *)
Definition key_kind (k : Key) : option KeyKind :=
  if bool_decide (k ∈ [("DATASET", "NAME"); ("DATASET", "PATH"); ("DATASET", "ROOT");
                       ("DATASET", "SOURCE"); ("DATASET", "TARGET")])
  then Some DatasetPathOrName
  else if bool_decide (k ∈ [("SOLVER", "TRAIN_BATCH_SIZE"); ("SOLVER", "TEST_BATCH_SIZE")])
  then Some BatchSize
  else if bool_decide (k = ("SOLVER", "SEED"))
  then Some SeedKey
  else if bool_decide (k ∈ [("SOLVER", "MIN_EPOCHS"); ("SOLVER", "MAX_EPOCHS")])
  then Some EpochBound
  else if bool_decide (k = ("OUTPUT", "TB_DIR"))
  then Some OutputDirectory
  else None.

Definition recognized (k : Key) : bool :=
  match key_kind k with
  | Some _ => true
  | None => false
  end.

(** The keys the DANN notebook reads beside those. *)
Definition dann_other_keys : list Key :=
  [("DATASET", "WEIGHT_TYPE"); ("DATASET", "SIZE_TYPE");
   ("DATASET", "VALID_SPLIT_RATIO"); ("OUTPUT", "PB_FRESH")].

Definition dann_key_ok (k : Key) : bool :=
  recognized k || bool_decide (k ∈ dann_other_keys).

(** The configuration file both notebooks name. *)
Definition tutorial_yaml_path : string := "./configs/tutorial.yaml".

(** ** What is claimed of a run *)

Section Statements.
Context {Item Rng Model Access : Type}.
Variable L : @Library Item Rng Model Access.


(** The configuration is the YAML file merged over the defaults, frozen; no
    assignment on it goes through, nothing reads it before the freeze, and
    every read finds the merged value. *)
Definition config_fixed {G : Type} (cfg_of : G -> CfgNode)
    (r : Outcome G * @RunState Item Rng Model Access) : Prop :=
  writes (trace r) = []
  /\ reads (before_freeze (trace r)) = []
  /\ (forall k found, (k, found) ∈ reads (trace r) ->
        exists other, load_cfg L tutorial_yaml_path = Done other
                      /\ (other ∪ defaults L) !! k = found)
  /\ forall g, r.1 = Done g ->
       exists other, load_cfg L tutorial_yaml_path = Done other
                     /\ cfg_of g = {| entries := other ∪ defaults L; frozen := true |}.



(** "Every configuration key read is a recognised one." *)
Definition reads_recognized_only {G : Type}
    (r : Outcome G * @RunState Item Rng Model Access) : Prop :=
  forall k found, (k, found) ∈ reads (trace r) -> recognized k = true.

(** [indices] is the first [k] entries of a permutation [randperm] drew for
    the [size] samples of the original [split], and [subset], which the loader
    holds, is the original restricted to them, in their order. *)
Definition sampled_from (split : string) (k size : nat) (indices : list nat)
    (subset : Dataset Item) (loader : DataLoader Item) : Prop :=
  exists (original : list Item) (drawn_from : Rng),
    (exists name path, binding_db L name split path = Done original)
    /\ size = length original
    /\ (randperm L drawn_from size).1 ≡ₚ seq 0 size
    /\ indices = take k (randperm L drawn_from size).1
    /\ subset = Subset (Full original) indices
    /\ dl_dataset loader = subset
    /\ forall i j, indices !! i = Some j -> ds_getitem subset i = original !! j.

(** The sampled indices are distinct and within the original split, there are
    [min k size] of them, and every access to the subset is in bounds. *)
Definition indices_in_bounds (k size : nat) (indices : list nat)
    (subset : Dataset Item) : Prop :=
  NoDup indices
  /\ Forall (fun j => j < size) indices
  /\ length indices = min k size
  /\ (exists original, subset = Subset original indices /\ ds_len original = size)
  /\ forall i, i < ds_len subset -> is_Some (ds_getitem subset i).


(** torch's contract for [randperm]. *)
Definition randperm_permutes : Prop :=
  forall g n, (randperm L g n).1 ≡ₚ seq 0 n.

(** *** Everything a run of either notebook satisfies *)

Definition trace_facts {G : Type}
    (r : Outcome G * @RunState Item Rng Model Access) : Prop :=
  ((stage_sequence (trace r) `prefix_of` all_stages
    /\ length (filter is_fit (trace r)) <= 1
    /\ length (filter is_test (trace r)) <= 1)
   /\ (forall g, r.1 = Done g ->
         stage_sequence (trace r) = all_stages
         /\ length (filter is_fit (trace r)) = 1
         /\ length (filter is_test (trace r)) = 1))
  /\ (writes (trace r) = []
      /\ reads (before_freeze (trace r)) = []
      /\ Forall (fun kv => exists other,
                   load_cfg L tutorial_yaml_path = Done other
                   /\ (other ∪ defaults L) !! kv.1 = kv.2)
                (reads (trace r)))
  /\ (raised (trace r) = match r.1 with Done _ => [] | Raised e => [e] end
      /\ forall e, r.1 = Raised e ->
           exists ev rest, log r.2 = Raise e :: ev :: rest /\ is_operation ev = true).

(** What the globals of a complete DeepDTA run are made of. *)
Definition deepdta_completed (a : @Ambient Rng) (g : @DeepDTAGlobals Item Model) : Prop :=
  exists other seed gs name path items_tr items_va items_te,
    load_cfg L tutorial_yaml_path = Done other
    /\ dta_cfg g = {| entries := other ∪ defaults L; frozen := true |}
    /\ (other ∪ defaults L) !! ("SOLVER", "SEED") = Some seed
    /\ manual_seed L seed = Done gs
    /\ (other ∪ defaults L) !! ("DATASET", "NAME") = Some name
    /\ (other ∪ defaults L) !! ("DATASET", "PATH") = Some path
    /\ binding_db L name "train" path = Done items_tr
    /\ binding_db L name "valid" path = Done items_va
    /\ binding_db L name "test" path = Done items_te
    /\ (dta_train_subset_size g, dta_valid_subset_size g, dta_test_subset_size g)
       = (8000, 1000, 1000)%nat
    /\ (dta_train_size g, dta_valid_size g, dta_test_size g)
       = (length items_tr, length items_va, length items_te)
    /\ dta_train_sample_indices g
       = take (dta_train_subset_size g) (randperm L gs (length items_tr)).1
    /\ dta_valid_sample_indices g
       = take (dta_valid_subset_size g)
              (randperm L (randperm L gs (length items_tr)).2 (length items_va)).1
    /\ dta_test_sample_indices g
       = take (dta_test_subset_size g)
              (randperm L (randperm L (randperm L gs (length items_tr)).2
                                      (length items_va)).2 (length items_te)).1
    /\ dta_train_dataset g = Subset (Full items_tr) (dta_train_sample_indices g)
    /\ dta_valid_dataset g = Subset (Full items_va) (dta_valid_sample_indices g)
    /\ dta_test_dataset g = Subset (Full items_te) (dta_test_sample_indices g)
    /\ dl_dataset (dta_train_loader g) = dta_train_dataset g
    /\ dl_dataset (dta_valid_loader g) = dta_valid_dataset g
    /\ dl_dataset (dta_test_loader g) = dta_test_dataset g
    /\ (other ∪ defaults L) !! ("SOLVER", "MIN_EPOCHS") = Some (min_epochs (dta_trainer g))
    /\ (other ∪ defaults L) !! ("SOLVER", "MAX_EPOCHS") = Some (max_epochs (dta_trainer g))
    /\ gpus (dta_trainer g) = dta_gpus g
    /\ dta_device g = (if cuda_available a then "cuda" else "cpu")
    /\ dta_gpus g = (if cuda_available a then VInt 1 else VInt 0)
    /\ (exists n, fit L (dta_trainer g) (dta_model g)
                    (Some (dta_train_loader g)) (Some (dta_valid_loader g)) = Done n)
    /\ (exists rmse, test_regression L (dta_trainer g) (dta_model g) (dta_test_loader g)
                     = Done rmse
                     /\ dta_out g = regression_report rmse).

Definition deepdta_facts (a : @Ambient Rng)
    (r : Outcome (@DeepDTAGlobals Item Model) * @RunState Item Rng Model Access) : Prop :=
  Forall (fun kv => recognized kv.1 = true) (reads (trace r))
  /\ filter is_randperm (before_seed (trace r)) = []
  /\ forall g, r.1 = Done g ->
       deepdta_completed a g
       /\ exists rest,
            log r.2 = Display (ShownReport (dta_out g))
                      :: Called (Test (dta_trainer g) (dta_model g) (Some (dta_test_loader g)))
                      :: Timing
                      :: Called (Fit (dta_trainer g) (dta_model g)
                                     (Some (dta_train_loader g)) (Some (dta_valid_loader g)))
                      :: Called (NewTrainer (dta_trainer g))
                      :: rest.

Definition deepdta_good (a : @Ambient Rng)
    (r : Outcome (@DeepDTAGlobals Item Model) * @RunState Item Rng Model Access) : Prop :=
  trace_facts r /\ deepdta_facts a r.

(** What the globals of a complete DANN run are made of. *)
Definition dann_completed (a : @Ambient Rng) (g : @DANNGlobals Model Access) : Prop :=
  exists other seed gs,
    load_cfg L tutorial_yaml_path = Done other
    /\ da_cfg g = {| entries := other ∪ defaults L; frozen := true |}
    /\ (other ∪ defaults L) !! ("SOLVER", "SEED") = Some seed
    /\ da_seed g = seed
    /\ manual_seed L seed = Done gs
    /\ (other ∪ defaults L) !! ("SOLVER", "MIN_EPOCHS") = Some (min_epochs (da_trainer g))
    /\ (other ∪ defaults L) !! ("SOLVER", "MAX_EPOCHS") = Some (max_epochs (da_trainer g))
    /\ gpus (da_trainer g) = da_gpus g
    /\ da_device g = (if cuda_available a then "cuda" else "cpu")
    /\ da_gpus g = (if cuda_available a then VInt 1 else VNone)
    /\ (exists n, fit L (da_trainer g) (da_model g) None None = Done n)
    /\ (exists d s t l, test_classification L (da_trainer g) (da_model g) = Done (d, s, t, l)
                        /\ da_out g = classification_report d s t l).

Definition dann_facts (a : @Ambient Rng)
    (r : Outcome (@DANNGlobals Model Access) * @RunState Item Rng Model Access) : Prop :=
  Forall (fun kv => dann_key_ok kv.1 = true) (reads (trace r))
  /\ match filter is_set_seed (trace r) with
     | [] => True
     | _ :: _ => stage_sequence (before_seed (trace r))
                 = [EnvironmentCheck; ConfigLoad; DatasetBuild]
     end
  /\ filter (in_stage DatasetBuild) (after_seed (trace r)) = []
  /\ forall g, r.1 = Done g ->
       dann_completed a g
       /\ exists rest,
            log r.2 = Display (ShownReport (da_out g))
                      :: Timing
                      :: Called (Test (da_trainer g) (da_model g) None)
                      :: Timing
                      :: Called (Fit (da_trainer g) (da_model g) None None)
                      :: Called (NewTrainer (da_trainer g))
                      :: rest.

Definition dann_good (a : @Ambient Rng)
    (r : Outcome (@DANNGlobals Model Access) * @RunState Item Rng Model Access) : Prop :=
  trace_facts r /\ dann_facts a r.

End Statements.

(** ** More observations of a run *)

Section MoreObservations.
Context {Item Model Access : Type}.

(** A [!command] line or a [%cd]. *)
Definition is_setup_command (ev : @Event Item Model Access) : bool :=
  match ev with
  | Called (Shell _) | Called (MagicCd _) => true
  | _ => false
  end.

(** The directories a run changed into. *)
Definition changed_into (ev : @Event Item Model Access) : option string :=
  match ev with
  | Called (MagicCd dir) => Some dir
  | _ => None
  end.

(** What happened from the import cell on. *)
Fixpoint from_import (tr : list (@Event Item Model Access)) : list (@Event Item Model Access) :=
  match tr with
  | [] => []
  | Called (Import modules) :: rest => Called (Import modules) :: rest
  | _ :: rest => from_import rest
  end.

(** The reports a run showed. *)
Definition shown_report (ev : @Event Item Model Access) : option Report :=
  match ev with
  | Display (ShownReport r) => Some r
  | _ => None
  end.

(** The plain values a run showed. *)
Definition shown_value (ev : @Event Item Model Access) : option Value :=
  match ev with
  | Display (ShownValue v) => Some v
  | _ => None
  end.

(** The sizes [torch.randperm] was asked for. *)
Definition randperm_size (ev : @Event Item Model Access) : option nat :=
  match ev with
  | Called (Randperm n) => Some n
  | _ => None
  end.

(** The seeds [set_seed] was called with. *)
Definition seed_given (ev : @Event Item Model Access) : option Value :=
  match ev with
  | Called (SetSeed v) => Some v
  | _ => None
  end.

(** The [BindingDBDataset] constructions: name, split, path. *)
Definition binding_db_request (ev : @Event Item Model Access)
  : option (Value * string * Value) :=
  match ev with
  | Called (NewBindingDBDataset name split path) => Some (name, split, path)
  | _ => None
  end.

(** The names [DigitDataset] was looked up with. *)
Definition digit_dataset_request (ev : @Event Item Model Access) : option string :=
  match ev with
  | Called (NewDigitDataset name) => Some name
  | _ => None
  end.

(** A read of a key that is then upper-cased, finding something that is not
    a string. *)
Definition upper_of_non_string (kv : Key * option Value) : bool :=
  match kv with
  | (("DATASET", "SOURCE"), Some (VStr _)) => false
  | (("DATASET", "TARGET"), Some (VStr _)) => false
  | (("DATASET", "SOURCE"), Some _) => true
  | (("DATASET", "TARGET"), Some _) => true
  | _ => false
  end.

End MoreObservations.

(** The samples of a dataset in index order, [[d[i] for i in range(len(d))]];
    [None] if an access raises. *)
Definition ds_items {Item : Type} (d : Dataset Item) : option (list Item) :=
  mapM (ds_getitem d) (seq 0 (ds_len d)).

Section MoreStatements.
Context {Item Rng Model Access : Type}.
Variable L : @Library Item Rng Model Access.

(** The subset keeps [min k n] samples of a split of [n], each at most as
    often as the split has it; a split of at most [k] samples is kept
    whole, reordered. *)
Definition keeps_samples (k : nat) (subset : Dataset Item) : Prop :=
  exists original indices samples,
    subset = Subset (Full original) indices
    /\ ds_items subset = Some samples
    /\ samples ⊆+ original
    /\ length samples = min k (length original)
    /\ (length original <= k -> samples ≡ₚ original).

(** How the objects of a complete DeepDTA run hang together. *)
Definition deepdta_wiring (g : @DeepDTAGlobals Item Model)
    (tr : list (@Event Item Model Access)) : Prop :=
  exists other seed name path batch_train batch_test,
    load_cfg L tutorial_yaml_path = Done other
    /\ (other ∪ defaults L) !! ("SOLVER", "SEED") = Some seed
    /\ (other ∪ defaults L) !! ("DATASET", "NAME") = Some name
    /\ (other ∪ defaults L) !! ("DATASET", "PATH") = Some path
    /\ (other ∪ defaults L) !! ("SOLVER", "TRAIN_BATCH_SIZE") = Some batch_train
    /\ (other ∪ defaults L) !! ("SOLVER", "TEST_BATCH_SIZE") = Some batch_test
    /\ dta_cfg g = {| entries := other ∪ defaults L; frozen := true |}
    /\ dta_cfg_path g = "./configs/tutorial.yaml"
    /\ dta_train_loader g
       = {| dl_dataset := dta_train_dataset g; dl_shuffle := true;
            dl_batch_size := batch_train |}
    /\ dta_valid_loader g
       = {| dl_dataset := dta_valid_dataset g; dl_shuffle := true;
            dl_batch_size := batch_test |}
    /\ dta_test_loader g
       = {| dl_dataset := dta_test_dataset g; dl_shuffle := true;
            dl_batch_size := batch_test |}
    /\ (get_model L (dta_cfg g)).2 = Done (dta_model g)
    /\ dta_tb_logger g = {| save_dir := VStr "tb_logs"; logger_name := name |}
    /\ dta_checkpoint_callback g = ModelCheckpoint None "valid_loss" "min"
    /\ logger (dta_trainer g) = dta_tb_logger g
    /\ callbacks (dta_trainer g) = [dta_checkpoint_callback g]
    /\ omap seed_given tr = [seed]
    /\ omap binding_db_request tr
       = [(name, "train", path); (name, "valid", path); (name, "test", path)]
    /\ omap randperm_size tr = [dta_train_size g; dta_valid_size g; dta_test_size g]
    /\ omap shown_value tr = [path].

(** More that every run of the DeepDTA notebook satisfies. *)
Definition deepdta_more (a : @Ambient Rng)
    (r : Outcome (@DeepDTAGlobals Item Model) * @RunState Item Rng Model Access) : Prop :=
  (if on_colab a
   then omap changed_into (trace r) = ["pykale/examples/bindingdb_deepdta"]
   else filter is_setup_command (trace r) = [])
  /\ filter is_setup_command (from_import (trace r)) = []
  /\ Forall (fun kv => kv.2 = None -> r.1 = Raised (Exception "AttributeError" kv.1.2))
            (reads (trace r))
  /\ (omap randperm_size (trace r) = []
      \/ exists n1 n2 n3, omap randperm_size (trace r) = [n1; n2; n3])
  /\ length (omap seed_given (trace r)) <= 1
  /\ match r.1 with
     | Done g => omap shown_report (trace r) = [dta_out g] /\ deepdta_wiring g (trace r)
     | Raised _ => omap shown_report (trace r) = []
     end.

(** How the objects of a complete DANN run hang together. *)
Definition dann_wiring (g : @DANNGlobals Model Access)
    (tr : list (@Event Item Model Access)) : Prop :=
  exists other source_name target_name root weight_type size_type split_ratio
         tb_dir pb_fresh source_member target_member,
    load_cfg L tutorial_yaml_path = Done other
    /\ (other ∪ defaults L) !! ("DATASET", "SOURCE") = Some (VStr source_name)
    /\ (other ∪ defaults L) !! ("DATASET", "TARGET") = Some (VStr target_name)
    /\ (other ∪ defaults L) !! ("DATASET", "ROOT") = Some root
    /\ (other ∪ defaults L) !! ("DATASET", "WEIGHT_TYPE") = Some weight_type
    /\ (other ∪ defaults L) !! ("DATASET", "SIZE_TYPE") = Some size_type
    /\ (other ∪ defaults L) !! ("DATASET", "VALID_SPLIT_RATIO") = Some split_ratio
    /\ (other ∪ defaults L) !! ("SOLVER", "SEED") = Some (da_seed g)
    /\ (other ∪ defaults L) !! ("OUTPUT", "TB_DIR") = Some tb_dir
    /\ (other ∪ defaults L) !! ("OUTPUT", "PB_FRESH") = Some pb_fresh
    /\ da_cfg g = {| entries := other ∪ defaults L; frozen := true |}
    /\ da_cfg_path g = "./configs/tutorial.yaml"
    /\ digit_dataset L (str_upper L source_name) = Done source_member
    /\ digit_dataset L (str_upper L target_name) = Done target_member
    /\ get_source_target L source_member target_member root
       = Done (da_source g, da_target g, da_num_channels g)
    /\ da_class_subset g = [1; 3; 8]%Z
    /\ da_dataset g
       = {| md_source := da_source g; md_target := da_target g;
            config_weight_type := weight_type; config_size_type := size_type;
            valid_split_ratio := split_ratio; class_ids := da_class_subset g |}
    /\ (get_model_da L (da_cfg g) (da_dataset g) (da_num_channels g)).2
       = Done (da_model g, da_train_params g)
    /\ da_tb_logger g
       = {| save_dir := tb_dir; logger_name := VStr (str_format L "seed{}" (da_seed g)) |}
    /\ da_checkpoint_callback g
       = ModelCheckpoint (Some "{epoch}-{step}-{valid_loss:.4f}") "valid_loss" "min"
    /\ da_progress_bar g = TQDMProgressBar pb_fresh
    /\ logger (da_trainer g) = da_tb_logger g
    /\ callbacks (da_trainer g) = [da_checkpoint_callback g; da_progress_bar g]
    /\ omap seed_given tr = [da_seed g]
    /\ omap digit_dataset_request tr = [str_upper L source_name; str_upper L target_name].

(** More that every run of the DANN notebook satisfies. *)
Definition dann_more (a : @Ambient Rng)
    (r : Outcome (@DANNGlobals Model Access) * @RunState Item Rng Model Access) : Prop :=
  (if on_colab a
   then omap changed_into (trace r) = ["pykale/examples/digits_dann_lightn"]
   else filter is_setup_command (trace r) = [])
  /\ filter is_setup_command (from_import (trace r)) = []
  /\ Forall (fun kv => kv.2 = None -> r.1 = Raised (Exception "AttributeError" kv.1.2))
            (reads (trace r))
  /\ Forall (fun kv => upper_of_non_string kv = true ->
                       r.1 = Raised (Exception "AttributeError" "upper"))
            (reads (trace r))
  /\ omap randperm_size (trace r) = []
  /\ length (omap seed_given (trace r)) <= 1
  /\ match r.1 with
     | Done g => omap shown_report (trace r) = [da_out g] /\ dann_wiring g (trace r)
     | Raised _ => omap shown_report (trace r) = []
     end.

End MoreStatements.

(** ** A concrete world to run the notebooks in

    Samples are numbers, the generator is a linear congruential one and
    [randperm] shuffles by insertion at generator-chosen positions. *)

Module Demo.

Definition lcg (g : N) : N := ((1103515245 * g + 12345) mod 2147483648)%N.

Fixpoint shuffle (g : N) (n : nat) : list nat * N :=
  match n with
  | O => ([], g)
  | S k =>
      let '(p, g1) := shuffle g k in
      let pos := N.to_nat (g1 mod N.of_nat (S k))%N in
      (take pos p ++ k :: drop pos p, lcg g1)
  end.

Definition tutorial_defaults : gmap (string * string) Value :=
  list_to_map
    [ (("DATASET", "PATH"), VStr "./data");
      (("DATASET", "NAME"), VStr "BindingDB_Kd");
      (("DATASET", "ROOT"), VStr "../data");
      (("DATASET", "SOURCE"), VStr "mnist");
      (("DATASET", "TARGET"), VStr "usps");
      (("DATASET", "WEIGHT_TYPE"), VStr "natural");
      (("DATASET", "SIZE_TYPE"), VStr "source");
      (("DATASET", "VALID_SPLIT_RATIO"), VFloat "0.1");
      (("SOLVER", "SEED"), VInt 2020);
      (("SOLVER", "TRAIN_BATCH_SIZE"), VInt 256);
      (("SOLVER", "TEST_BATCH_SIZE"), VInt 256);
      (("SOLVER", "MIN_EPOCHS"), VInt 0);
      (("SOLVER", "MAX_EPOCHS"), VInt 100);
      (("OUTPUT", "TB_DIR"), VStr "tb_logs");
      (("OUTPUT", "PB_FRESH"), VInt 50) ].

Definition tutorial_yaml : gmap (string * string) Value :=
  list_to_map
    [ (("SOLVER", "MIN_EPOCHS"), VInt 1);
      (("SOLVER", "MAX_EPOCHS"), VInt 3);
      (("DATASET", "SOURCE"), VStr "svhn") ].

Definition split_items (split : string) : list Z :=
  if String.eqb split "train" then Z.of_nat <$> seq 0 20
  else if String.eqb split "valid" then Z.of_nat <$> seq 100 8
  else Z.of_nat <$> seq 5000 7.

(** A trainer without early stopping runs [max_epochs] epochs. *)
Definition epochs_of (tr : Trainer) : Outcome nat :=
  match max_epochs tr with
  | VInt hi =>
      if (0 <=? hi)%Z then Done (Z.to_nat hi)
      else Raised (Exception "MisconfigurationException" "max_epochs")
  | _ => Raised (Exception "TypeError" "max_epochs")
  end.

Definition load_tutorial (path : string) : Outcome (gmap (string * string) Value) :=
  if String.eqb path "./configs/tutorial.yaml" then Done tutorial_yaml
  else Raised (Exception "FileNotFoundError" path).

Definition load_nothing (path : string) : Outcome (gmap (string * string) Value) :=
  Raised (Exception "FileNotFoundError" path).

(** A [get_model] that only reads the configuration, and one that tries to
    raise the epoch limit on the node it is handed. *)
Definition build_model (cfg : CfgNode) : list (string * string * Value) * Outcome string :=
  ([], Done "DeepDTATrainer").

Definition meddling_build_model (cfg : CfgNode)
  : list (string * string * Value) * Outcome string :=
  ([(("SOLVER", "MAX_EPOCHS"), VInt 100)], Done "DeepDTATrainer").

Definition library_with (load : string -> Outcome (gmap (string * string) Value))
    (build : CfgNode -> list (string * string * Value) * Outcome string)
  : @Library Z N string string :=
  {| import_error := fun _ => None;
     defaults := tutorial_defaults;
     load_cfg := load;
     merge_rejects := fun _ _ => None;
     manual_seed := fun seed =>
       match seed with
       | VInt z => Done (Z.to_N z)
       | _ => Raised (Exception "TypeError" "seed")
       end;
     randperm := shuffle;
     binding_db := fun _ split _ => Done (split_items split);
     data_loader_error := fun _ => None;
     get_model := build;
     digit_dataset := fun name => Done name;
     get_source_target := fun s t _ => Done (s, t, 3%Z);
     multi_domain_error := fun _ => None;
     get_model_da := fun _ _ _ => ([], Done ("DANNTrainer", [("method", VStr "DANN")]));
     logger_error := fun _ => None;
     callback_error := fun _ => None;
     trainer_error := fun _ => None;
     fit := fun tr _ _ _ => epochs_of tr;
     test_regression := fun _ _ _ => Done (VFloat "7.3");
     test_classification := fun _ _ =>
       Done (VFloat "0.5", VFloat "0.9", VFloat "0.6", VFloat "1.2");
     str_upper := fun s => s;
     str_format := fun fmt v =>
       match v with
       | VInt z => String.app "seed" (pretty z)
       | _ => fmt
       end |}.

(** The tutorial's files in place. *)
Definition library : @Library Z N string string :=
  library_with load_tutorial build_model.

(** The same, with [./configs/tutorial.yaml] missing. *)
Definition library_without_yaml : @Library Z N string string :=
  library_with load_nothing build_model.

(** The same as [library], with the meddling [get_model]. *)
Definition library_meddling : @Library Z N string string :=
  library_with load_tutorial meddling_build_model.

(** A laptop without a GPU, outside Colab. *)
Definition laptop : Ambient := {| on_colab := false; cuda_available := false; gen0 := 7%N |}.

(** A Colab session with a GPU and another generator state. *)
Definition colab_gpu : Ambient := {| on_colab := true; cuda_available := true; gen0 := 99%N |}.

End Demo.

(** ** Worlds with something missing or wrong *)

Module DemoEdge.

(** [base] with other imports, defaults and datasets. *)
Definition with_parts (base : @Library Z N string string)
    (imports : list string -> option Exn)
    (defs : gmap (string * string) Value)
  : @Library Z N string string :=
  {| import_error := imports;
     defaults := defs;
     load_cfg := load_cfg base;
     merge_rejects := merge_rejects base;
     manual_seed := manual_seed base;
     randperm := randperm base;
     binding_db := binding_db base;
     data_loader_error := data_loader_error base;
     get_model := get_model base;
     digit_dataset := digit_dataset base;
     get_source_target := get_source_target base;
     multi_domain_error := multi_domain_error base;
     get_model_da := get_model_da base;
     logger_error := logger_error base;
     callback_error := callback_error base;
     trainer_error := trainer_error base;
     fit := fit base;
     test_regression := test_regression base;
     test_classification := test_classification base;
     str_upper := str_upper base;
     str_format := str_format base |}.


(** The defaults with a number for [DATASET.TARGET]. *)
Definition library_numeric_target : @Library Z N string string :=
  with_parts Demo.library (import_error Demo.library)
             (<[("DATASET", "TARGET") := VInt 5]> Demo.tutorial_defaults).

(** kale is not installed. *)
Definition library_without_kale : @Library Z N string string :=
  with_parts Demo.library
             (fun _ => Some (Exception "ModuleNotFoundError" "No module named 'kale'"))
             Demo.tutorial_defaults.

End DemoEdge.


(** ** Proofs *)

Section Properties.
Context {Item Rng Model Access : Type}.
Variable L : @Library Item Rng Model Access.

(** A frozen node comes back from any callee as it went in. *)
Lemma callee_writes_frozen (cfg : CfgNode) (ws : list (Key * Value)) :
  frozen cfg = true ->
  @callee_writes Item Rng Model Access cfg ws = ret cfg.
Proof.
  intros Hf. induction ws as [|[k v] ws IH]; [reflexivity|].
  simpl. unfold setattr. rewrite Hf. exact IH.
Qed.

(** An unfrozen node does change under a callee's assignment, and the log
    shows it: the freeze is what keeps the configuration fixed. *)
Lemma callee_writes_unfrozen (cfg : CfgNode) (k : Key) (v : Value)
    (s : @RunState Item Rng Model Access) :
  frozen cfg = false ->
  exists cfg',
    callee_writes cfg [(k, v)] s
    = (Done cfg', {| gen := gen s; log := CfgWrite k v :: log s |})
    /\ entries cfg' !! k = Some v.
Proof.
  intros Hf. eexists. simpl. unfold setattr. rewrite Hf.
  split; [reflexivity|]. simpl. apply lookup_insert_eq.
Qed.

(** *** Running a notebook symbolically

    [unfold_cells] exposes the next answer of the library the run depends
    on, [step] splits on it. *)

Ltac scrut t :=
  match t with
  | match ?x with _ => _ end => scrut x
  | ?f _ => scrut_head f
  | _ => t
  end
with scrut_head f :=
  match f with
  | match ?x with _ => _ end => scrut x
  | ?g _ => scrut_head g
  end.

Ltac unfold_cells :=
  cbv [run_deepdta run_dann deepdta_notebook dann_notebook start
       cell_d2c44298 cell_83b926d3 cell_c81a024e cell_716a4b15 cell_ab06bd86
       cell_1b68a11c cell_557f7ea3 cell_4d3d9332 cell_c6d1aea7 cell_5b484f26
       cell_b8c5c3c1 cell_3bda8d74
       cell_aed40d82 cell_fa4e8582 cell_f8add5b8 cell_66e98e83 cell_e1177e66
       cell_daec6200 cell_4d8e3976 cell_2e4c07f3 cell_c4d36430 cell_cef2ec46
       cell_6dcfb7a3 cell_f1e7a5d3 cell_5f59fcee
       bind ret emit raise lift call construct print shell magic_cd magic_time
       cfg_get get_cfg_defaults merge_from_file cfg_freeze set_seed torch_randperm
       cuda_is_available in_colab import_modules display get_gen put_gen
       new_binding_db_dataset sample_indices new_subset new_data_loader
       digit_dataset_of getattr freeze merge_from_other_cfg entries frozen gen log
       tutorial_yaml_path].

Ltac hide_literals a :=
  repeat match goal with
         | |- context [Shell ?s] =>
             lazymatch s with String _ _ => generalize s; intro end
         | |- context [MagicCd ?s] =>
             lazymatch s with String _ _ => generalize s; intro end
         end;
  match goal with
  | |- context [if String.eqb ?d "cuda" then ?x else ?y] =>
      let gpus := fresh "gpus" in
      let Hgpus := fresh "Hgpus" in
      remember (if String.eqb d "cuda" then x else y) as gpus eqn:Hgpus
  end;
  match goal with
  | |- context [if cuda_available a then ?x else ?y] =>
      let device := fresh "device" in
      let Hdevice := fresh "Hdevice" in
      remember (if cuda_available a then x else y) as device eqn:Hdevice
  end.

Ltac step :=
  first
  [ rewrite callee_writes_frozen by reflexivity
  | match goal with
    | |- context [match ?x with _ => _ end] =>
        let y := scrut x in
        first [ match goal with H : y = _ |- _ => rewrite H end
              | destruct y eqn:? ]
    end ];
  unfold_cells.

Ltac observe :=
  match goal with
  | |- Forall ?P ?l => let l' := eval lazy in l in change (Forall P l')
  end.

Ltac read_ok :=
  cbv beta iota; eexists; split; [eassumption | eassumption].

Ltac generic_leaf :=
  unfold trace_facts, trace; cbv [fst snd log];
  split; [split; [split; [lazy; eexists; reflexivity | split; lazy; lia]
                 | intros ? [= <-]; lazy; repeat split ]
         | split; [split; [lazy; reflexivity
                          | split; [lazy; reflexivity
                                   | observe; repeat (constructor; [read_ok|]); constructor ] ]
                  | split; [lazy; reflexivity
                           | first [ intros ? [= <-]; eexists _, _; split; reflexivity
                                   | intros ? [=] ] ] ] ].

Ltac deepdta_completed_leaf :=
  repeat eexists;
  repeat match goal with |- _ /\ _ => split end;
  cbv [dta_cfg dta_train_subset_size dta_valid_subset_size dta_test_subset_size
       dta_train_size dta_valid_size dta_test_size dta_train_sample_indices
       dta_valid_sample_indices dta_test_sample_indices dta_train_dataset
       dta_valid_dataset dta_test_dataset dta_train_loader dta_valid_loader
       dta_test_loader dta_model dta_trainer dta_out dta_device dta_gpus
       dta_tb_logger dta_checkpoint_callback
       dl_dataset dl_batch_size min_epochs max_epochs gpus fst snd ds_len];
  first [ eassumption
        | reflexivity
        | subst; match goal with |- context [cuda_available ?a] =>
                   destruct (cuda_available a); reflexivity end ].

Ltac deepdta_leaf :=
  unfold deepdta_facts, trace; cbv [fst snd log];
  split; [ observe; repeat (constructor; [reflexivity|]); constructor
         | split; [ lazy; reflexivity
                  | first [ intros ? [= <-]; split;
                            [deepdta_completed_leaf | eexists; reflexivity]
                          | intros ? [=] ] ] ].

Ltac dann_completed_leaf :=
  repeat eexists;
  repeat match goal with |- _ /\ _ => split end;
  cbv [da_cfg da_seed da_trainer da_model da_out da_device da_gpus
       min_epochs max_epochs gpus fst snd];
  first [ eassumption
        | reflexivity
        | subst; match goal with |- context [cuda_available ?a] =>
                   destruct (cuda_available a); reflexivity end ].

Ltac dann_leaf :=
  unfold dann_facts, trace; cbv [fst snd log];
  split; [ observe; repeat (constructor; [reflexivity|]); constructor
         | split; [ lazy; first [reflexivity | exact I]
                  | split; [ lazy; reflexivity
                           | first [ intros ? [= <-]; split;
                                     [dann_completed_leaf | eexists; reflexivity]
                                   | intros ? [=] ] ] ] ].

(** Every run of the DeepDTA notebook, whatever the library answers. *)
Lemma deepdta_run_facts (a : @Ambient Rng) : deepdta_good L a (run_deepdta L a).
Proof.
  unfold_cells. hide_literals a.
  repeat step.
  all: split; [generic_leaf | deepdta_leaf].
Qed.

(** Every run of the DANN notebook, whatever the library answers. *)
Lemma dann_run_facts (a : @Ambient Rng) : dann_good L a (run_dann L a).
Proof.
  unfold_cells. hide_literals a.
  repeat step.
  all: split; [generic_leaf | dann_leaf].
Qed.

Lemma is_done_inv {A : Type} (o : Outcome A) : is_done o = true -> exists a, o = Done a.
Proof. destruct o as [a|e]; [eauto | discriminate]. Qed.




Lemma trace_facts_reads {G : Type} (r : Outcome G * @RunState Item Rng Model Access) :
  trace_facts L r ->
  writes (trace r) = []
  /\ reads (before_freeze (trace r)) = []
  /\ forall k found, (k, found) ∈ reads (trace r) ->
       exists other, load_cfg L tutorial_yaml_path = Done other
                     /\ (other ∪ defaults L) !! k = found.
Proof.
  intros (_ & (Hw & Hb & Hf) & _). split; [exact Hw|]. split; [exact Hb|].
  intros k found Hin. rewrite Forall_forall in Hf. exact (Hf _ Hin).
Qed.


(** C2. In both notebooks the configuration is the tutorial YAML file merged
    over the defaults and then frozen; after that no assignment to it goes
    through (not even from the callee that is handed the node), no key is read
    before the freeze, and every read of a key finds the merged value. *)
Theorem C2_config_frozen (a : @Ambient Rng) :
  config_fixed L dta_cfg (run_deepdta L a) /\ config_fixed L da_cfg (run_dann L a).
Proof.
  split.
  - destruct (deepdta_run_facts a) as [Ht (_ & _ & Hc)].
    destruct (trace_facts_reads _ Ht) as (Hw & Hb & Hr).
    repeat split; try assumption.
    intros g Hg. destruct (Hc g Hg) as [(other & ? & ? & ? & ? & ? & ? & ? & Hl & Hcfg & _) _].
    exists other. auto.
  - destruct (dann_run_facts a) as [Ht (_ & _ & _ & Hc)].
    destruct (trace_facts_reads _ Ht) as (Hw & Hb & Hr).
    repeat split; try assumption.
    intros g Hg. destruct (Hc g Hg) as [(other & ? & ? & Hl & Hcfg & _) _].
    exists other. auto.
Qed.


(** C4, as amended. Every configuration key the DeepDTA notebook reads is one
    of the recognised kinds (dataset path/name, batch sizes, seed, epoch
    bounds, output directories); every key the DANN notebook reads is one of
    those or one of [DATASET.WEIGHT_TYPE], [DATASET.SIZE_TYPE],
    [DATASET.VALID_SPLIT_RATIO], [OUTPUT.PB_FRESH]. *)
Theorem C4_keys_read (a : @Ambient Rng) :
  reads_recognized_only (run_deepdta L a)
  /\ forall k found, (k, found) ∈ reads (trace (run_dann L a)) ->
       recognized k = true \/ k ∈ dann_other_keys.
Proof.
  split.
  - destruct (deepdta_run_facts a) as [_ (Hk & _)].
    intros k found Hin. rewrite Forall_forall in Hk. exact (Hk _ Hin).
  - destruct (dann_run_facts a) as [_ (Hk & _)].
    intros k found Hin. rewrite Forall_forall in Hk. specialize (Hk _ Hin).
    unfold dann_key_ok in Hk. simpl in Hk.
    apply orb_true_iff in Hk. destruct Hk as [Hk|Hk]; [left; exact Hk|right].
    apply bool_decide_eq_true in Hk. exact Hk.
Qed.

Lemma take_of_permutation (k n : nat) (p : list nat) :
  p ≡ₚ seq 0 n ->
  NoDup (take k p) /\ Forall (fun j => j < n) (take k p) /\ length (take k p) = min k n.
Proof.
  intros Hp. split; [|split].
  - assert (Hnd : NoDup p) by (rewrite Hp; apply NoDup_seq).
    rewrite <- (take_drop k p) in Hnd. apply NoDup_app in Hnd. tauto.
  - apply Forall_forall. intros j Hj.
    assert (Hin : j ∈ p).
    { rewrite <- (take_drop k p). apply elem_of_app. left. exact Hj. }
    rewrite Hp in Hin. apply elem_of_seq in Hin. lia.
  - rewrite length_take. apply Permutation_length in Hp.
    rewrite length_seq in Hp. rewrite Hp. reflexivity.
Qed.

Lemma subset_getitem (original : list Item) (indices : list nat) (i j : nat) :
  indices !! i = Some j ->
  ds_getitem (Subset (Full original) indices) i = original !! j.
Proof. intros H. simpl. rewrite H. reflexivity. Qed.

Lemma deepdta_sampling (a : @Ambient Rng) (g : @DeepDTAGlobals Item Model) :
  randperm_permutes L ->
  (run_deepdta L a).1 = Done g ->
  sampled_from L "train" 8000 (dta_train_size g) (dta_train_sample_indices g)
               (dta_train_dataset g) (dta_train_loader g)
  /\ sampled_from L "valid" 1000 (dta_valid_size g) (dta_valid_sample_indices g)
                  (dta_valid_dataset g) (dta_valid_loader g)
  /\ sampled_from L "test" 1000 (dta_test_size g) (dta_test_sample_indices g)
                  (dta_test_dataset g) (dta_test_loader g).
Proof.
  intros Hperm Hg.
  destruct (deepdta_run_facts a) as [_ (_ & _ & Hc)].
  destruct (Hc g Hg) as [(other & seed & gs & name & path & tr & va & te & Hc') _].
  destruct Hc' as (_ & _ & _ & _ & _ & _ & Htr & Hva & Hte & Hk & Hn & Hitr & Hiva & Hite
                   & Hdtr & Hdva & Hdte & Hltr & Hlva & Hlte & _).
  injection Hk as Hk1 Hk2 Hk3. injection Hn as Hn1 Hn2 Hn3.
  rewrite Hk1 in Hitr. rewrite Hk2 in Hiva. rewrite Hk3 in Hite.
  split; [|split].
  - exists tr, gs. rewrite Hn1.
    split; [eauto|]. split; [reflexivity|]. split; [apply Hperm|].
    split; [exact Hitr|]. split; [exact Hdtr|]. split; [exact Hltr|].
    intros i j Hij. rewrite Hdtr. apply subset_getitem. exact Hij.
  - exists va, (randperm L gs (length tr)).2. rewrite Hn2.
    split; [eauto|]. split; [reflexivity|]. split; [apply Hperm|].
    split; [exact Hiva|]. split; [exact Hdva|]. split; [exact Hlva|].
    intros i j Hij. rewrite Hdva. apply subset_getitem. exact Hij.
  - exists te, (randperm L (randperm L gs (length tr)).2 (length va)).2. rewrite Hn3.
    split; [eauto|]. split; [reflexivity|]. split; [apply Hperm|].
    split; [exact Hite|]. split; [exact Hdte|]. split; [exact Hlte|].
    intros i j Hij. rewrite Hdte. apply subset_getitem. exact Hij.
Qed.

(** C5. In a complete run of the DeepDTA notebook, for each of the train,
    valid and test splits the index list is the first k entries (k = 8000,
    1000, 1000) of a permutation of 0..len(split)-1 that [torch.randperm]
    drew, and the dataset handed to the loader is the [Subset] of the original
    split on those indices: its i-th sample is the original's sample at the
    i-th index. ([randperm] returning a permutation is torch's contract.) *)
Theorem C5_subset_sampling (a : @Ambient Rng) (g : @DeepDTAGlobals Item Model) :
  randperm_permutes L ->
  (run_deepdta L a).1 = Done g ->
  sampled_from L "train" 8000 (dta_train_size g) (dta_train_sample_indices g)
               (dta_train_dataset g) (dta_train_loader g)
  /\ sampled_from L "valid" 1000 (dta_valid_size g) (dta_valid_sample_indices g)
                  (dta_valid_dataset g) (dta_valid_loader g)
  /\ sampled_from L "test" 1000 (dta_test_size g) (dta_test_sample_indices g)
                  (dta_test_dataset g) (dta_test_loader g).
Proof. exact (deepdta_sampling a g). Qed.

Lemma sampled_in_bounds (split : string) (k size : nat) (indices : list nat)
    (subset : Dataset Item) (loader : DataLoader Item) :
  sampled_from L split k size indices subset loader ->
  indices_in_bounds k size indices subset.
Proof.
  intros (original & gen & _ & Hsize & Hp & Hi & Hs & _ & Hget).
  destruct (take_of_permutation k size _ Hp) as (Hnd & Hlt & Hlen).
  rewrite <- Hi in Hnd, Hlt, Hlen.
  split; [exact Hnd|]. split; [exact Hlt|]. split; [exact Hlen|].
  split.
  - exists (Full original). split; [exact Hs|]. simpl. symmetry. exact Hsize.
  - intros i Hi'. rewrite Hs in Hi'. simpl in Hi'.
    destruct (lookup_lt_is_Some_2 indices i Hi') as [j Hj].
    rewrite (Hget i j Hj).
    apply lookup_lt_is_Some_2.
    rewrite Forall_forall in Hlt. rewrite <- Hsize. apply Hlt.
    apply list_elem_of_lookup. eauto.
Qed.

(** C9. In a complete run of the DeepDTA notebook each of the three index
    lists has pairwise distinct entries, all below the length of its split,
    and as many of them as the smaller of the requested size and that length;
    so every access within the length of the resulting [Subset] is in
    bounds. *)
Theorem C9_indices_in_bounds (a : @Ambient Rng) (g : @DeepDTAGlobals Item Model) :
  randperm_permutes L ->
  (run_deepdta L a).1 = Done g ->
  indices_in_bounds 8000 (dta_train_size g) (dta_train_sample_indices g) (dta_train_dataset g)
  /\ indices_in_bounds 1000 (dta_valid_size g) (dta_valid_sample_indices g) (dta_valid_dataset g)
  /\ indices_in_bounds 1000 (dta_test_size g) (dta_test_sample_indices g) (dta_test_dataset g).
Proof.
  intros Hperm Hg.
  destruct (deepdta_sampling a g Hperm Hg) as (H1 & H2 & H3).
  split; [|split]; eapply sampled_in_bounds; eassumption.
Qed.

(** C10. Two complete runs of the DeepDTA notebook against the same files and
    libraries, whatever machine and generator state each starts from, sample
    the same train, valid and test index lists: no [randperm] call comes
    before [set_seed]. In the DANN notebook [set_seed] comes when the dataset
    construction is over: what precedes it are the environment check, the
    configuration and the datasets, and no dataset call follows it. *)
Theorem C10_seeded_sampling (a1 a2 : @Ambient Rng) :
  (forall g1 g2,
     (run_deepdta L a1).1 = Done g1 ->
     (run_deepdta L a2).1 = Done g2 ->
     dta_train_sample_indices g1 = dta_train_sample_indices g2
     /\ dta_valid_sample_indices g1 = dta_valid_sample_indices g2
     /\ dta_test_sample_indices g1 = dta_test_sample_indices g2)
  /\ filter is_randperm (before_seed (trace (run_deepdta L a1))) = []
  /\ (forall v, Called (SetSeed v) ∈ trace (run_dann L a1) ->
        stage_sequence (before_seed (trace (run_dann L a1)))
        = [EnvironmentCheck; ConfigLoad; DatasetBuild])
  /\ filter (in_stage DatasetBuild) (after_seed (trace (run_dann L a1))) = [].
Proof.
  split; [|split; [|split]].
  - intros g1 g2 H1 H2.
    destruct (deepdta_run_facts a1) as [_ (_ & _ & Hc1)].
    destruct (deepdta_run_facts a2) as [_ (_ & _ & Hc2)].
    destruct (Hc1 g1 H1) as [(o1 & s1 & r1 & n1 & p1 & tr1 & va1 & te1 & F1) _].
    destruct (Hc2 g2 H2) as [(o2 & s2 & r2 & n2 & p2 & tr2 & va2 & te2 & F2) _].
    destruct F1 as (Hl1 & _ & Hs1 & Hm1 & Hn1 & Hp1 & Htr1 & Hva1 & Hte1 & Hk1 & _
                    & Hi1 & Hj1 & Hh1 & _).
    destruct F2 as (Hl2 & _ & Hs2 & Hm2 & Hn2 & Hp2 & Htr2 & Hva2 & Hte2 & Hk2 & _
                    & Hi2 & Hj2 & Hh2 & _).
    rewrite Hl1 in Hl2. injection Hl2 as <-.
    rewrite Hs1 in Hs2. injection Hs2 as <-.
    rewrite Hm1 in Hm2. injection Hm2 as <-.
    rewrite Hn1 in Hn2. injection Hn2 as <-.
    rewrite Hp1 in Hp2. injection Hp2 as <-.
    rewrite Htr1 in Htr2. injection Htr2 as <-.
    rewrite Hva1 in Hva2. injection Hva2 as <-.
    rewrite Hte1 in Hte2. injection Hte2 as <-.
    injection Hk1 as Ha1 Hb1 Hc1'. injection Hk2 as Ha2 Hb2 Hc2'.
    rewrite Hi1, Hi2, Hj1, Hj2, Hh1, Hh2, Ha1, Ha2, Hb1, Hb2, Hc1', Hc2'.
    auto.
  - destruct (deepdta_run_facts a1) as [_ (_ & Hr & _)]. exact Hr.
  - intros v Hin.
    destruct (dann_run_facts a1) as [_ (_ & Hs & _)].
    destruct (filter is_set_seed (trace (run_dann L a1))) eqn:Hf; [|exact Hs].
    exfalso.
    assert (Hin' : Called (SetSeed v) ∈ filter is_set_seed (trace (run_dann L a1))).
    { apply list_elem_of_filter. split; [exact I | exact Hin]. }
    rewrite Hf in Hin'. inversion Hin'.
  - destruct (dann_run_facts a1) as [_ (_ & _ & Hs & _)]. exact Hs.
Qed.



(** C8. Device selection is a total function of CUDA availability: the device
    cell never raises, the device is "cuda" exactly when
    [torch.cuda.is_available()] holds and "cpu" otherwise, and the trainer is
    given [gpus] 1 with CUDA and otherwise 0 (DeepDTA) or [None] (DANN). *)
Theorem C8_device_selection (a : @Ambient Rng) :
  (forall s : @RunState Item Rng Model Access,
     (cell_716a4b15 a s).1 = Done (if cuda_available a then "cuda" else "cpu",
                                   if cuda_available a then VInt 1 else VInt 0))
  /\ (forall s : @RunState Item Rng Model Access,
        (cell_66e98e83 a s).1 = Done (if cuda_available a then "cuda" else "cpu",
                                      if cuda_available a then VInt 1 else VNone))
  /\ (forall g, (run_deepdta L a).1 = Done g ->
        (dta_device g = "cuda" <-> cuda_available a = true)
        /\ (dta_device g = "cpu" <-> cuda_available a = false)
        /\ gpus (dta_trainer g) = (if cuda_available a then VInt 1 else VInt 0))
  /\ (forall g, (run_dann L a).1 = Done g ->
        (da_device g = "cuda" <-> cuda_available a = true)
        /\ (da_device g = "cpu" <-> cuda_available a = false)
        /\ gpus (da_trainer g) = (if cuda_available a then VInt 1 else VNone)).
Proof.
  split; [|split; [|split]].
  - intros s. destruct (cuda_available a) eqn:Hc;
      unfold cell_716a4b15, cuda_is_available, bind, emit, ret, print;
      rewrite Hc; reflexivity.
  - intros s. destruct (cuda_available a) eqn:Hc;
      unfold cell_66e98e83, cuda_is_available, bind, emit, ret, print;
      rewrite Hc; reflexivity.
  - intros g Hg.
    destruct (deepdta_run_facts a) as [_ (_ & _ & Hc)].
    destruct (Hc g Hg) as [(other & seed & gs & name & path & tr & va & te & F) _].
    destruct F as (_ & _ & _ & _ & _ & _ & _ & _ & _ & _ & _ & _ & _ & _ & _ & _ & _
                   & _ & _ & _ & _ & _ & Hgp & Hdev & Hg' & _).
    rewrite Hgp, Hdev, Hg'.
    destruct (cuda_available a); repeat split; intros; congruence.
  - intros g Hg.
    destruct (dann_run_facts a) as [_ (_ & _ & _ & Hc)].
    destruct (Hc g Hg) as [(other & seed & gs & F) _].
    destruct F as (_ & _ & _ & _ & _ & _ & _ & Hgp & Hdev & Hg' & _).
    rewrite Hgp, Hdev, Hg'.
    destruct (cuda_available a); repeat split; intros; congruence.
Qed.


(** *** More on runs *)

Ltac hide_device a :=
  repeat match goal with
         | |- context [Shell ?s] =>
             lazymatch s with String _ _ => generalize s; intro end
         end;
  match goal with
  | |- context [if String.eqb ?d "cuda" then ?x else ?y] =>
      let gpus := fresh "gpus" in
      let Hgpus := fresh "Hgpus" in
      remember (if String.eqb d "cuda" then x else y) as gpus eqn:Hgpus
  end;
  match goal with
  | |- context [if cuda_available a then ?x else ?y] =>
      let device := fresh "device" in
      let Hdevice := fresh "Hdevice" in
      remember (if cuda_available a then x else y) as device eqn:Hdevice
  end.

Ltac missing_ok :=
  cbv beta iota; intros Hnone; first [discriminate Hnone | reflexivity].

Ltac wiring_leaf :=
  repeat eexists;
  repeat match goal with |- _ /\ _ => split end;
  cbv [dta_cfg_path dta_cfg dta_train_size dta_valid_size dta_test_size
       dta_train_dataset dta_valid_dataset dta_test_dataset dta_train_loader
       dta_valid_loader dta_test_loader dta_model dta_trainer
       dta_tb_logger dta_checkpoint_callback
       da_cfg_path da_cfg da_source da_target da_num_channels da_class_subset
       da_dataset da_seed da_model da_train_params da_tb_logger
       da_checkpoint_callback da_progress_bar da_trainer
       logger callbacks fst snd ds_len];
  first [ eassumption | reflexivity | lazy; reflexivity ].

Ltac more_common a :=
  match goal with H : on_colab a = _ |- _ => rewrite H end;
  split; [lazy; reflexivity|];
  split; [lazy; reflexivity|];
  split; [observe; repeat (constructor; [missing_ok|]); constructor|].

Ltac deepdta_more_leaf a :=
  unfold deepdta_more, trace; cbv [fst snd log];
  more_common a;
  split; [first [left; lazy; reflexivity | right; eexists _, _, _; lazy; reflexivity]|];
  split; [lazy; lia|];
  first [ split; [lazy; reflexivity | wiring_leaf ] | lazy; reflexivity ].

Ltac dann_more_leaf a :=
  unfold dann_more, trace; cbv [fst snd log];
  more_common a;
  split; [observe; repeat (constructor; [missing_ok|]); constructor|];
  split; [lazy; reflexivity|];
  split; [lazy; lia|];
  first [ split; [lazy; reflexivity | wiring_leaf ] | lazy; reflexivity ].

(** More on every run of the DeepDTA notebook, whatever the library answers. *)
Lemma deepdta_run_more (a : @Ambient Rng) : deepdta_more L a (run_deepdta L a).
Proof.
  unfold_cells. hide_device a.
  repeat step.
  all: deepdta_more_leaf a.
Qed.

(** More on every run of the DANN notebook, whatever the library answers. *)
Lemma dann_run_more (a : @Ambient Rng) : dann_more L a (run_dann L a).
Proof.
  unfold_cells. hide_device a.
  repeat step.
  all: dann_more_leaf a.
Qed.

Lemma deepdta_complete_run (a : @Ambient Rng) (g : @DeepDTAGlobals Item Model) :
  (run_deepdta L a).1 = Done g ->
  exists other,
    load_cfg L tutorial_yaml_path = Done other
    /\ dta_cfg g = {| entries := other ∪ defaults L; frozen := true |}
    /\ deepdta_wiring L g (trace (run_deepdta L a)).
Proof.
  intros Hg.
  destruct (deepdta_run_more a) as (_ & _ & _ & _ & _ & Hm).
  rewrite Hg in Hm. destruct Hm as [_ Hw].
  pose proof Hw as (other & ? & ? & ? & ? & ? & Hload & _ & _ & _ & _ & _ & Hcfg & _).
  exists other. auto.
Qed.

Lemma dann_complete_run (a : @Ambient Rng) (g : @DANNGlobals Model Access) :
  (run_dann L a).1 = Done g ->
  exists other,
    load_cfg L tutorial_yaml_path = Done other
    /\ da_cfg g = {| entries := other ∪ defaults L; frozen := true |}
    /\ dann_wiring L g (trace (run_dann L a)).
Proof.
  intros Hg.
  destruct (dann_run_more a) as (_ & _ & _ & _ & _ & _ & Hm).
  rewrite Hg in Hm. destruct Hm as [_ Hw].
  pose proof Hw as (other & ? & ? & ? & ? & ? & ? & ? & ? & ? & ?
                    & Hload & _ & _ & _ & _ & _ & _ & _ & _ & _ & Hcfg & _).
  exists other. auto.
Qed.

Ltac same_file :=
  match goal with
  | H1 : load_cfg L tutorial_yaml_path = Done ?x,
    H2 : load_cfg L tutorial_yaml_path = Done ?y |- _ =>
      rewrite H1 in H2; injection H2 as <-
  end.

(** X1. Outside Colab neither notebook runs a shell command or changes
    directory; on Colab it changes once, into the example's own directory; and
    in every run all shell commands and the directory change come before the
    import cell. *)
Theorem setup_commands_only_on_colab (a : @Ambient Rng) :
  ((on_colab a = false -> filter is_setup_command (trace (run_deepdta L a)) = [])
   /\ (on_colab a = true ->
       omap changed_into (trace (run_deepdta L a)) = ["pykale/examples/bindingdb_deepdta"])
   /\ filter is_setup_command (from_import (trace (run_deepdta L a))) = [])
  /\ ((on_colab a = false -> filter is_setup_command (trace (run_dann L a)) = [])
      /\ (on_colab a = true ->
          omap changed_into (trace (run_dann L a)) = ["pykale/examples/digits_dann_lightn"])
      /\ filter is_setup_command (from_import (trace (run_dann L a))) = []).
Proof.
  destruct (deepdta_run_more a) as (H1 & H2 & _).
  destruct (dann_run_more a) as (H3 & H4 & _).
  destruct (on_colab a); repeat split; intros; solve [assumption | discriminate].
Qed.


Lemma lookup_merged (other base : gmap (string * string) Value) (k : Key) :
  (other ∪ base) !! k = match other !! k with
                        | Some v => Some v
                        | None => base !! k
                        end.
Proof.
  rewrite lookup_union. destruct (other !! k), (base !! k); reflexivity.
Qed.

(** X3. In a complete run the configuration holds, for every key, the YAML
    file's value where the file gives one and the default otherwise. *)
Theorem merged_config_values (a : @Ambient Rng) :
  (forall g, (run_deepdta L a).1 = Done g ->
     exists other,
       load_cfg L tutorial_yaml_path = Done other
       /\ forall k, entries (dta_cfg g) !! k = match other !! k with
                                              | Some v => Some v
                                              | None => defaults L !! k
                                              end)
  /\ (forall g, (run_dann L a).1 = Done g ->
        exists other,
          load_cfg L tutorial_yaml_path = Done other
          /\ forall k, entries (da_cfg g) !! k = match other !! k with
                                                | Some v => Some v
                                                | None => defaults L !! k
                                                end).
Proof.
  split; intros g Hg.
  - destruct (deepdta_complete_run a g Hg) as (other & Hload & Hcfg & _).
    exists other. split; [exact Hload|]. intros k. rewrite Hcfg. apply lookup_merged.
  - destruct (dann_complete_run a g Hg) as (other & Hload & Hcfg & _).
    exists other. split; [exact Hload|]. intros k. rewrite Hcfg. apply lookup_merged.
Qed.

(** X4. A run of the DeepDTA notebook calls [torch.randperm] either not at
    all or three times; a complete run calls it with the lengths of the whole
    train, valid and test splits, in this order. The DANN notebook never calls
    it. *)
Theorem sampling_all_or_nothing (a : @Ambient Rng) :
  (omap randperm_size (trace (run_deepdta L a)) = []
   \/ exists n1 n2 n3, omap randperm_size (trace (run_deepdta L a)) = [n1; n2; n3])
  /\ (forall g, (run_deepdta L a).1 = Done g ->
        omap randperm_size (trace (run_deepdta L a))
        = [dta_train_size g; dta_valid_size g; dta_test_size g])
  /\ omap randperm_size (trace (run_dann L a)) = [].
Proof.
  split; [|split].
  - destruct (deepdta_run_more a) as (_ & _ & _ & H & _). exact H.
  - intros g Hg.
    destruct (deepdta_complete_run a g Hg) as (other & _ & _ & W).
    destruct W as (? & ? & ? & ? & ? & ? & W).
    repeat match type of W with _ /\ _ => destruct W as [_ W] || fail end.
    destruct (deepdta_run_more a) as (_ & _ & _ & _ & _ & Hm).
    rewrite Hg in Hm. destruct Hm as [_ (? & ? & ? & ? & ? & ? & W')].
    decompose [and] W'. assumption.
  - destruct (dann_run_more a) as (_ & _ & _ & _ & H & _). exact H.
Qed.


(** X6. In a complete DeepDTA run each loader holds its own subset, all three
    shuffle, the train loader's batch size is [cfg.SOLVER.TRAIN_BATCH_SIZE],
    and the valid and the test loader both have [cfg.SOLVER.TEST_BATCH_SIZE]. *)
Theorem deepdta_loaders (a : @Ambient Rng) (g : @DeepDTAGlobals Item Model) :
  (run_deepdta L a).1 = Done g ->
  (dl_dataset (dta_train_loader g) = dta_train_dataset g
   /\ dl_dataset (dta_valid_loader g) = dta_valid_dataset g
   /\ dl_dataset (dta_test_loader g) = dta_test_dataset g)
  /\ (dl_shuffle (dta_train_loader g) = true
      /\ dl_shuffle (dta_valid_loader g) = true
      /\ dl_shuffle (dta_test_loader g) = true)
  /\ entries (dta_cfg g) !! ("SOLVER", "TRAIN_BATCH_SIZE")
     = Some (dl_batch_size (dta_train_loader g))
  /\ entries (dta_cfg g) !! ("SOLVER", "TEST_BATCH_SIZE")
     = Some (dl_batch_size (dta_valid_loader g))
  /\ dl_batch_size (dta_test_loader g) = dl_batch_size (dta_valid_loader g).
Proof.
  intros Hg.
  destruct (deepdta_complete_run a g Hg) as (other & Hload & Hcfg & W).
  destruct W as (other' & seed & name & path & btr & bte & W).
  decompose [and] W. same_file.
  repeat match goal with H : _ g = mkLoader _ _ _ |- _ => rewrite H end.
  rewrite Hcfg. simpl. auto 10.
Qed.

(** X7. In a complete DeepDTA run [BindingDBDataset] is constructed three
    times, for the splits train, valid, test in this order, always with
    [cfg.DATASET.NAME] and [cfg.DATASET.PATH]; the path the notebook shows is
    that path and the TensorBoard logger is named after that dataset. *)
Theorem deepdta_dataset_requests (a : @Ambient Rng) (g : @DeepDTAGlobals Item Model) :
  (run_deepdta L a).1 = Done g ->
  exists name path,
    entries (dta_cfg g) !! ("DATASET", "NAME") = Some name
    /\ entries (dta_cfg g) !! ("DATASET", "PATH") = Some path
    /\ omap binding_db_request (trace (run_deepdta L a))
       = [(name, "train", path); (name, "valid", path); (name, "test", path)]
    /\ omap shown_value (trace (run_deepdta L a)) = [path]
    /\ logger_name (dta_tb_logger g) = name.
Proof.
  intros Hg.
  destruct (deepdta_complete_run a g Hg) as (other & Hload & Hcfg & W).
  destruct W as (other' & seed & name & path & btr & bte & W).
  decompose [and] W. same_file.
  exists name, path. rewrite Hcfg. simpl.
  match goal with H : dta_tb_logger g = _ |- _ => rewrite H end.
  simpl. auto 10.
Qed.

(** X8. In a complete DeepDTA run the model is what [get_model] returned for
    the frozen configuration, the logger writes under "tb_logs", and the
    trainer holds that logger and one callback, the checkpoint on the smallest
    [valid_loss]. *)
Theorem deepdta_trainer_parts (a : @Ambient Rng) (g : @DeepDTAGlobals Item Model) :
  (run_deepdta L a).1 = Done g ->
  (get_model L (dta_cfg g)).2 = Done (dta_model g)
  /\ save_dir (dta_tb_logger g) = VStr "tb_logs"
  /\ logger (dta_trainer g) = dta_tb_logger g
  /\ callbacks (dta_trainer g) = [ModelCheckpoint None "valid_loss" "min"].
Proof.
  intros Hg.
  destruct (deepdta_complete_run a g Hg) as (other & Hload & Hcfg & W).
  destruct W as (other' & seed & name & path & btr & bte & W).
  decompose [and] W.
  repeat match goal with
         | H : dta_tb_logger g = _ |- _ => rewrite H in *; clear H
         | H : dta_checkpoint_callback g = _ |- _ => rewrite H in *; clear H
         end.
  simpl. auto.
Qed.

(** X9. [set_seed] is called at most once in any run of either notebook, and
    in a complete run exactly once, with [cfg.SOLVER.SEED]. *)
Theorem seed_set_once (a : @Ambient Rng) :
  (length (omap seed_given (trace (run_deepdta L a))) <= 1
   /\ forall g, (run_deepdta L a).1 = Done g ->
        exists seed, entries (dta_cfg g) !! ("SOLVER", "SEED") = Some seed
                     /\ omap seed_given (trace (run_deepdta L a)) = [seed])
  /\ (length (omap seed_given (trace (run_dann L a))) <= 1
      /\ forall g, (run_dann L a).1 = Done g ->
           entries (da_cfg g) !! ("SOLVER", "SEED") = Some (da_seed g)
           /\ omap seed_given (trace (run_dann L a)) = [da_seed g]).
Proof.
  split; split.
  - destruct (deepdta_run_more a) as (_ & _ & _ & _ & H & _). exact H.
  - intros g Hg.
    destruct (deepdta_complete_run a g Hg) as (other & Hload & Hcfg & W).
    destruct W as (other' & seed & name & path & btr & bte & W).
    decompose [and] W. same_file.
    exists seed. rewrite Hcfg. simpl. auto.
  - destruct (dann_run_more a) as (_ & _ & _ & _ & _ & H & _). exact H.
  - intros g Hg.
    destruct (dann_complete_run a g Hg) as (other & Hload & Hcfg & W).
    destruct W as (other' & sn & tn & root & wt & st & ratio & tb & pb & sm & tm & W).
    decompose [and] W. same_file.
    rewrite Hcfg. simpl. auto.
Qed.

(** X10. In a complete DANN run [DigitDataset] is looked up with the
    upper-cased [cfg.DATASET.SOURCE] and [cfg.DATASET.TARGET], in this order;
    [get_source_target] gets the two members and [cfg.DATASET.ROOT]; the
    multi-domain dataset is built from the source and target it returned, the
    class subset 1, 3, 8 and the weight type, size type and split ratio of the
    configuration; and [get_model] gets that dataset and the number of
    channels [get_source_target] returned. *)
Theorem dann_datasets (a : @Ambient Rng) (g : @DANNGlobals Model Access) :
  (run_dann L a).1 = Done g ->
  exists source_name target_name root source_member target_member,
    entries (da_cfg g) !! ("DATASET", "SOURCE") = Some (VStr source_name)
    /\ entries (da_cfg g) !! ("DATASET", "TARGET") = Some (VStr target_name)
    /\ entries (da_cfg g) !! ("DATASET", "ROOT") = Some root
    /\ omap digit_dataset_request (trace (run_dann L a))
       = [str_upper L source_name; str_upper L target_name]
    /\ digit_dataset L (str_upper L source_name) = Done source_member
    /\ digit_dataset L (str_upper L target_name) = Done target_member
    /\ get_source_target L source_member target_member root
       = Done (da_source g, da_target g, da_num_channels g)
    /\ md_source (da_dataset g) = da_source g
    /\ md_target (da_dataset g) = da_target g
    /\ class_ids (da_dataset g) = [1; 3; 8]%Z
    /\ entries (da_cfg g) !! ("DATASET", "WEIGHT_TYPE")
       = Some (config_weight_type (da_dataset g))
    /\ entries (da_cfg g) !! ("DATASET", "SIZE_TYPE")
       = Some (config_size_type (da_dataset g))
    /\ entries (da_cfg g) !! ("DATASET", "VALID_SPLIT_RATIO")
       = Some (valid_split_ratio (da_dataset g))
    /\ (get_model_da L (da_cfg g) (da_dataset g) (da_num_channels g)).2
       = Done (da_model g, da_train_params g).
Proof.
  intros Hg.
  destruct (dann_complete_run a g Hg) as (other & Hload & Hcfg & W).
  destruct W as (other' & sn & tn & root & wt & st & ratio & tb & pb & sm & tm & W).
  decompose [and] W. same_file.
  exists sn, tn, root, sm, tm.
  match goal with H : da_dataset g = _ |- _ => rename H into Hds end.
  match goal with H : da_class_subset g = _ |- _ => rename H into Hcs end.
  rewrite Hcfg. simpl.
  repeat split; try assumption;
    rewrite Hds; simpl; first [assumption | reflexivity | congruence].
Qed.

(** X11. In a complete DANN run the logger writes under [cfg.OUTPUT.TB_DIR]
    and is named by formatting "seed{}" with the seed [set_seed] was called
    with; the trainer holds that logger and two callbacks, the checkpoint and
    then the progress bar with refresh rate [cfg.OUTPUT.PB_FRESH]. *)
Theorem dann_trainer_parts (a : @Ambient Rng) (g : @DANNGlobals Model Access) :
  (run_dann L a).1 = Done g ->
  entries (da_cfg g) !! ("OUTPUT", "TB_DIR") = Some (save_dir (da_tb_logger g))
  /\ logger_name (da_tb_logger g) = VStr (str_format L "seed{}" (da_seed g))
  /\ omap seed_given (trace (run_dann L a)) = [da_seed g]
  /\ (exists refresh,
        entries (da_cfg g) !! ("OUTPUT", "PB_FRESH") = Some refresh
        /\ callbacks (da_trainer g)
           = [ModelCheckpoint (Some "{epoch}-{step}-{valid_loss:.4f}") "valid_loss" "min";
              TQDMProgressBar refresh])
  /\ logger (da_trainer g) = da_tb_logger g.
Proof.
  intros Hg.
  destruct (dann_complete_run a g Hg) as (other & Hload & Hcfg & W).
  destruct W as (other' & sn & tn & root & wt & st & ratio & tb & pb & sm & tm & W).
  decompose [and] W. same_file.
  repeat match goal with
         | H : da_tb_logger g = _ |- _ => rewrite H in *; clear H
         | H : da_checkpoint_callback g = _ |- _ => rewrite H in *; clear H
         | H : da_progress_bar g = _ |- _ => rewrite H in *; clear H
         end.
  rewrite Hcfg. simpl. eauto 10.
Qed.

(** X12. If [cfg.DATASET.SOURCE] or [cfg.DATASET.TARGET] is read and is not a
    string, the DANN run ends with the [AttributeError] of [.upper()]. *)
Theorem dann_upper_needs_a_string (a : @Ambient Rng) (key : string) (v : Value) :
  key = "SOURCE" \/ key = "TARGET" ->
  (forall s, v <> VStr s) ->
  (("DATASET", key), Some v) ∈ reads (trace (run_dann L a)) ->
  (run_dann L a).1 = Raised (Exception "AttributeError" "upper").
Proof.
  intros Hkey Hv Hin.
  destruct (dann_run_more a) as (_ & _ & _ & H & _).
  rewrite Forall_forall in H. apply (H _ Hin).
  destruct Hkey as [-> | ->]; destruct v; try reflexivity; exfalso; eapply Hv; reflexivity.
Qed.

Lemma mapM_all_Some {A B : Type} (f : A -> option B) (l : list A) :
  Forall (fun x => is_Some (f x)) l -> mapM f l = Some (omap f l).
Proof.
  induction 1 as [|x l [y Hy] _ IH]; [reflexivity|].
  simpl. rewrite Hy, IH. reflexivity.
Qed.

Lemma omap_all_Some_length {A B : Type} (f : A -> option B) (l : list A) :
  Forall (fun x => is_Some (f x)) l -> length (omap f l) = length l.
Proof.
  induction 1 as [|x l [y Hy] _ IH]; [reflexivity|].
  simpl. rewrite Hy. simpl. f_equal. exact IH.
Qed.

Lemma mapM_through_indices {A : Type} (f : nat -> option A) (get : nat -> option A)
    (pre idx : list nat) :
  (forall i, get i = match (pre ++ idx) !! i with
                     | Some j => f j
                     | None => None
                     end) ->
  mapM get (seq (length pre) (length idx)) = mapM f idx.
Proof.
  revert pre. induction idx as [|j idx IH]; intros pre Hget; [reflexivity|].
  simpl. rewrite Hget.
  rewrite lookup_app_r by lia. rewrite Nat.sub_diag. simpl.
  specialize (IH (pre ++ [j])).
  rewrite length_app in IH. simpl in IH. rewrite Nat.add_1_r in IH.
  rewrite IH; [reflexivity|].
  intros i. rewrite Hget, <- app_assoc. reflexivity.
Qed.

Lemma subset_items_as_lookups (original : list Item) (idx : list nat) :
  ds_items (Subset (Full original) idx) = mapM (fun j => original !! j) idx.
Proof.
  unfold ds_items. simpl ds_len.
  apply (mapM_through_indices (fun j => original !! j) _ [] idx).
  intros i. reflexivity.
Qed.

Lemma omap_lookup_from (pre original : list Item) :
  omap (fun j => (pre ++ original) !! j) (seq (length pre) (length original)) = original.
Proof.
  revert pre. induction original as [|x l IH]; intros pre; [reflexivity|].
  simpl. rewrite lookup_app_r by lia. rewrite Nat.sub_diag. simpl.
  f_equal. specialize (IH (pre ++ [x])).
  rewrite length_app in IH. simpl in IH. rewrite Nat.add_1_r, <- app_assoc in IH.
  exact IH.
Qed.

Lemma omap_lookup_all (original : list Item) :
  omap (fun j => original !! j) (seq 0 (length original)) = original.
Proof. exact (omap_lookup_from [] original). Qed.

Lemma subset_of_permutation_items (original : list Item) (p : list nat) (k : nat) :
  p ≡ₚ seq 0 (length original) ->
  keeps_samples k (Subset (Full original) (take k p)).
Proof.
  intros Hp.
  assert (Hall : Forall (fun j => is_Some (original !! j)) p).
  { apply Forall_forall. intros j Hj. rewrite Hp in Hj.
    apply elem_of_seq in Hj. apply lookup_lt_is_Some_2. lia. }
  assert (Hwhole : omap (fun j => original !! j) p ≡ₚ original).
  { rewrite Hp. rewrite omap_lookup_all. reflexivity. }
  exists original, (take k p), (omap (fun j => original !! j) (take k p)).
  split; [reflexivity|]. split.
  - rewrite subset_items_as_lookups. apply mapM_all_Some.
    apply Forall_take. exact Hall.
  - split; [|split].
    + rewrite <- Hwhole. rewrite <- (take_drop k p) at 2. rewrite omap_app.
      apply submseteq_inserts_r. reflexivity.
    + rewrite omap_all_Some_length by (apply Forall_take; exact Hall).
      rewrite length_take.
      apply Permutation_length in Hp. rewrite length_seq in Hp. rewrite Hp.
      reflexivity.
    + intros Hle. rewrite take_ge; [exact Hwhole|].
      apply Permutation_length in Hp. rewrite length_seq in Hp. lia.
Qed.

(** X13. In a complete DeepDTA run each subset can be iterated without an
    index error, holds [min k n] samples of its split of [n] (k = 8000, 1000,
    1000), no sample more often than the split has it, and is the whole split
    reordered when the split has at most [k] samples. ([randperm] returning a
    permutation is torch's contract.) *)
Theorem subsets_keep_samples (a : @Ambient Rng) (g : @DeepDTAGlobals Item Model) :
  randperm_permutes L ->
  (run_deepdta L a).1 = Done g ->
  keeps_samples 8000 (dta_train_dataset g)
  /\ keeps_samples 1000 (dta_valid_dataset g)
  /\ keeps_samples 1000 (dta_test_dataset g).
Proof.
  intros Hperm Hg.
  destruct (deepdta_sampling a g Hperm Hg) as (H1 & H2 & H3).
  destruct H1 as (o1 & g1 & _ & Hs1 & Hp1 & Hi1 & Hd1 & _).
  destruct H2 as (o2 & g2 & _ & Hs2 & Hp2 & Hi2 & Hd2 & _).
  destruct H3 as (o3 & g3 & _ & Hs3 & Hp3 & Hi3 & Hd3 & _).
  rewrite Hd1, Hi1, Hd2, Hi2, Hd3, Hi3.
  rewrite Hs1 in Hp1. rewrite Hs2 in Hp2. rewrite Hs3 in Hp3.
  rewrite Hs1, Hs2, Hs3.
  split; [|split]; apply subset_of_permutation_items; assumption.
Qed.


(** X14. If the import cell fails, the run ends with that exception: no
    configuration is loaded and no key is read. *)
Theorem failed_import_stops_before_config (a : @Ambient Rng) (e : Exn) :
  (import_error L deepdta_modules = Some e ->
     (run_deepdta L a).1 = Raised e
     /\ reads (trace (run_deepdta L a)) = []
     /\ stage_sequence (trace (run_deepdta L a)) = [EnvironmentCheck])
  /\ (import_error L dann_modules = Some e ->
        (run_dann L a).1 = Raised e
        /\ reads (trace (run_dann L a)) = []
        /\ stage_sequence (trace (run_dann L a)) = [EnvironmentCheck]).
Proof.
  split; intros Hi.
  - unfold trace, run_deepdta, deepdta_notebook, start.
    cbv [cell_d2c44298 cell_83b926d3 bind ret emit raise lift call construct print
         shell magic_cd in_colab import_modules gen log].
    destruct (on_colab a); rewrite Hi; repeat split; lazy; reflexivity.
  - unfold trace, run_dann, dann_notebook, start.
    cbv [cell_aed40d82 cell_fa4e8582 bind ret emit raise lift call construct print
         shell magic_cd in_colab import_modules gen log].
    destruct (on_colab a); rewrite Hi; repeat split; lazy; reflexivity.
Qed.

End Properties.

(** ** The concrete world meets the contracts assumed of the libraries *)

Lemma demo_shuffle_permutes (g : N) (n : nat) : (Demo.shuffle g n).1 ≡ₚ seq 0 n.
Proof.
  induction n as [|k IH]; [reflexivity|].
  rewrite seq_S. cbn [Demo.shuffle].
  destruct (Demo.shuffle g k) as [p g1]. cbn [fst] in *.
  rewrite <- Permutation_middle, take_drop, IH.
  apply Permutation_cons_append.
Qed.

Lemma demo_randperm_permutes : randperm_permutes Demo.library.
Proof. intros g n. apply demo_shuffle_permutes. Qed.


(** The two demo sessions start from different generators, which would give
    different samples were the generator not reseeded. *)
Lemma demo_generators_differ :
  take 5 (Demo.shuffle (gen0 Demo.laptop) 20).1
  <> take 5 (Demo.shuffle (gen0 Demo.colab_gpu) 20).1.
Proof. vm_compute. discriminate. Qed.

(** The run on the laptop, seeded with 2020, samples these train indices. *)
Example demo_train_sample_indices :
  match (run_deepdta Demo.library Demo.laptop).1 with
  | Done g => dta_train_sample_indices g
  | Raised _ => []
  end
  = [6; 0; 5; 2; 1; 18; 8; 14; 15; 12; 4; 19; 16; 11; 13; 10; 9; 17; 3; 7].
Proof. vm_compute. reflexivity. Qed.

(** Without the YAML file the run stops in the configuration cell. *)
Example demo_missing_yaml_trace :
  trace (run_deepdta Demo.library_without_yaml Demo.laptop)
  = [Called GetIPython; Printed "Not running on CoLab";
     Called (Import deepdta_modules); Called GetCfgDefaults;
     Called (MergeFromFile "./configs/tutorial.yaml");
     Raise (Exception "FileNotFoundError" "./configs/tutorial.yaml")]
  /\ stage_sequence (trace (run_deepdta Demo.library_without_yaml Demo.laptop))
     = [EnvironmentCheck; ConfigLoad].
Proof. split; vm_compute; reflexivity. Qed.

(** Asking for fewer indices than there are samples keeps a prefix of the
    permutation; asking for more keeps all of it. *)
Example demo_sample_indices_prefix :
  exists s,
    sample_indices Demo.library 7 3 (start Demo.laptop) = (Done (take 3 (Demo.shuffle 7 7).1), s)
    /\ length (take 3 (Demo.shuffle 7 7).1) = 3
    /\ length (take 1000 (Demo.shuffle 7 7).1) = 7.
Proof. eexists. repeat split. Qed.

(** *** Runs in the concrete world *)

Lemma demo_deepdta_laptop_completes :
  is_done (run_deepdta Demo.library Demo.laptop).1 = true.
Proof. vm_compute. reflexivity. Qed.

Lemma demo_deepdta_colab_completes :
  is_done (run_deepdta Demo.library Demo.colab_gpu).1 = true.
Proof. vm_compute. reflexivity. Qed.

Lemma demo_dann_laptop_completes :
  is_done (run_dann Demo.library Demo.laptop).1 = true.
Proof. vm_compute. reflexivity. Qed.


Ltac in_list := apply list_elem_of_In; vm_compute; repeat (first [left; reflexivity | right]).


Lemma C2_witness :
  writes (trace (run_deepdta Demo.library_meddling Demo.laptop)) = []
  /\ exists other,
       load_cfg Demo.library_meddling tutorial_yaml_path = Done other
       /\ (other ∪ defaults Demo.library_meddling) !! ("SOLVER", "MAX_EPOCHS")
          = Some (VInt 3).
Proof.
  destruct (C2_config_frozen Demo.library_meddling Demo.laptop) as [(Hw & _ & Hr & _) _].
  split; [exact Hw|].
  apply (Hr ("SOLVER", "MAX_EPOCHS") (Some (VInt 3))).
  in_list.
Defined.



Lemma C4_counterexample : ~ reads_recognized_only (run_dann Demo.library Demo.laptop).
Proof.
  intros H.
  assert (Hr : recognized ("OUTPUT", "PB_FRESH") = true).
  { apply (H ("OUTPUT", "PB_FRESH") (Some (VInt 50))). in_list. }
  vm_compute in Hr. discriminate Hr.
Qed.

Lemma C4_witness :
  recognized ("SOLVER", "TRAIN_BATCH_SIZE") = true
  /\ (recognized ("DATASET", "VALID_SPLIT_RATIO") = true
      \/ ("DATASET", "VALID_SPLIT_RATIO") ∈ dann_other_keys).
Proof.
  destruct (C4_keys_read Demo.library Demo.laptop) as [H1 H2].
  split.
  - apply (H1 ("SOLVER", "TRAIN_BATCH_SIZE") (Some (VInt 256))). in_list.
  - apply (H2 ("DATASET", "VALID_SPLIT_RATIO") (Some (VFloat "0.1"))). in_list.
Defined.

Lemma C5_witness :
  exists g,
    (run_deepdta Demo.library Demo.laptop).1 = Done g
    /\ sampled_from Demo.library "valid" 1000 (dta_valid_size g)
                    (dta_valid_sample_indices g) (dta_valid_dataset g) (dta_valid_loader g).
Proof.
  destruct (is_done_inv _ demo_deepdta_laptop_completes) as [g Hg].
  exists g. split; [exact Hg|].
  exact (proj1 (proj2 (C5_subset_sampling Demo.library Demo.laptop g
                         demo_randperm_permutes Hg))).
Defined.

Lemma C9_witness :
  exists g,
    (run_deepdta Demo.library Demo.laptop).1 = Done g
    /\ indices_in_bounds 1000 (dta_valid_size g) (dta_valid_sample_indices g)
                         (dta_valid_dataset g).
Proof.
  destruct (is_done_inv _ demo_deepdta_laptop_completes) as [g Hg].
  exists g. split; [exact Hg|].
  exact (proj1 (proj2 (C9_indices_in_bounds Demo.library Demo.laptop g
                         demo_randperm_permutes Hg))).
Defined.

Lemma C10_witness :
  exists g1 g2,
    (run_deepdta Demo.library Demo.laptop).1 = Done g1
    /\ (run_deepdta Demo.library Demo.colab_gpu).1 = Done g2
    /\ dta_train_sample_indices g1 = dta_train_sample_indices g2
    /\ dta_valid_sample_indices g1 = dta_valid_sample_indices g2
    /\ dta_test_sample_indices g1 = dta_test_sample_indices g2.
Proof.
  destruct (is_done_inv _ demo_deepdta_laptop_completes) as [g1 Hg1].
  destruct (is_done_inv _ demo_deepdta_colab_completes) as [g2 Hg2].
  exists g1, g2. split; [exact Hg1|]. split; [exact Hg2|].
  exact (proj1 (C10_seeded_sampling Demo.library Demo.laptop Demo.colab_gpu) g1 g2 Hg1 Hg2).
Defined.



Lemma C8_witness :
  exists g,
    (run_deepdta Demo.library Demo.laptop).1 = Done g
    /\ dta_device g = "cpu"
    /\ gpus (dta_trainer g) = VInt 0.
Proof.
  destruct (is_done_inv _ demo_deepdta_laptop_completes) as [g Hg].
  destruct (C8_device_selection Demo.library Demo.laptop) as (_ & _ & H & _).
  destruct (H g Hg) as (_ & Hcpu & Hgpus).
  exists g. split; [exact Hg|].
  split; [apply Hcpu; reflexivity | exact Hgpus].
Defined.

(** *** Runs in the worlds with something missing or wrong *)

Lemma setup_commands_only_on_colab_witness :
  filter is_setup_command (trace (run_deepdta Demo.library Demo.laptop)) = []
  /\ omap changed_into (trace (run_dann Demo.library Demo.colab_gpu))
     = ["pykale/examples/digits_dann_lightn"].
Proof.
  destruct (setup_commands_only_on_colab Demo.library Demo.laptop) as [(H1 & _) _].
  destruct (setup_commands_only_on_colab Demo.library Demo.colab_gpu) as [_ (_ & H2 & _)].
  split; [apply H1 | apply H2]; reflexivity.
Defined.


Lemma merged_config_values_witness :
  exists g,
    (run_deepdta Demo.library Demo.laptop).1 = Done g
    /\ entries (dta_cfg g) !! ("SOLVER", "MAX_EPOCHS") = Some (VInt 3)
    /\ entries (dta_cfg g) !! ("SOLVER", "SEED") = Some (VInt 2020).
Proof.
  destruct (is_done_inv _ demo_deepdta_laptop_completes) as [g Hg].
  destruct (proj1 (merged_config_values Demo.library Demo.laptop) g Hg) as (other & Hload & Hk).
  change (load_cfg Demo.library tutorial_yaml_path) with (Done Demo.tutorial_yaml) in Hload.
  injection Hload as <-.
  exists g. split; [exact Hg|].
  split; rewrite Hk; vm_compute; reflexivity.
Defined.

Lemma sampling_all_or_nothing_witness :
  exists g,
    (run_deepdta Demo.library Demo.laptop).1 = Done g
    /\ omap randperm_size (trace (run_deepdta Demo.library Demo.laptop))
       = [dta_train_size g; dta_valid_size g; dta_test_size g].
Proof.
  destruct (is_done_inv _ demo_deepdta_laptop_completes) as [g Hg].
  exists g. split; [exact Hg|].
  exact (proj1 (proj2 (sampling_all_or_nothing Demo.library Demo.laptop)) g Hg).
Defined.

Lemma deepdta_loaders_witness :
  exists g,
    (run_deepdta Demo.library Demo.laptop).1 = Done g
    /\ dl_shuffle (dta_test_loader g) = true
    /\ dl_batch_size (dta_test_loader g) = dl_batch_size (dta_valid_loader g).
Proof.
  destruct (is_done_inv _ demo_deepdta_laptop_completes) as [g Hg].
  destruct (deepdta_loaders Demo.library Demo.laptop g Hg) as (_ & (_ & _ & Hs) & _ & _ & Hb).
  exists g. auto.
Defined.

Lemma deepdta_dataset_requests_witness :
  exists g name path,
    (run_deepdta Demo.library Demo.laptop).1 = Done g
    /\ omap binding_db_request (trace (run_deepdta Demo.library Demo.laptop))
       = [(name, "train", path); (name, "valid", path); (name, "test", path)]
    /\ logger_name (dta_tb_logger g) = name.
Proof.
  destruct (is_done_inv _ demo_deepdta_laptop_completes) as [g Hg].
  destruct (deepdta_dataset_requests Demo.library Demo.laptop g Hg)
    as (name & path & _ & _ & Hr & _ & Hn).
  exists g, name, path. auto.
Defined.

Lemma deepdta_trainer_parts_witness :
  exists g,
    (run_deepdta Demo.library Demo.laptop).1 = Done g
    /\ callbacks (dta_trainer g) = [ModelCheckpoint None "valid_loss" "min"].
Proof.
  destruct (is_done_inv _ demo_deepdta_laptop_completes) as [g Hg].
  destruct (deepdta_trainer_parts Demo.library Demo.laptop g Hg) as (_ & _ & _ & Hc).
  exists g. auto.
Defined.

Lemma seed_set_once_witness :
  exists g,
    (run_dann Demo.library Demo.laptop).1 = Done g
    /\ omap seed_given (trace (run_dann Demo.library Demo.laptop)) = [da_seed g].
Proof.
  destruct (is_done_inv _ demo_dann_laptop_completes) as [g Hg].
  destruct (seed_set_once Demo.library Demo.laptop) as [_ [_ H]].
  exists g. split; [exact Hg | exact (proj2 (H g Hg))].
Defined.

Lemma dann_datasets_witness :
  exists g,
    (run_dann Demo.library Demo.laptop).1 = Done g
    /\ class_ids (da_dataset g) = [1; 3; 8]%Z
    /\ md_source (da_dataset g) = da_source g.
Proof.
  destruct (is_done_inv _ demo_dann_laptop_completes) as [g Hg].
  destruct (dann_datasets Demo.library Demo.laptop g Hg)
    as (? & ? & ? & ? & ? & _ & _ & _ & _ & _ & _ & _ & Hs & _ & Hc & _).
  exists g. auto.
Defined.

Lemma dann_trainer_parts_witness :
  exists g,
    (run_dann Demo.library Demo.laptop).1 = Done g
    /\ logger_name (da_tb_logger g) = VStr (str_format Demo.library "seed{}" (da_seed g)).
Proof.
  destruct (is_done_inv _ demo_dann_laptop_completes) as [g Hg].
  destruct (dann_trainer_parts Demo.library Demo.laptop g Hg) as (_ & Hn & _).
  exists g. auto.
Defined.

Lemma dann_upper_needs_a_string_witness :
  (run_dann DemoEdge.library_numeric_target Demo.laptop).1
  = Raised (Exception "AttributeError" "upper").
Proof.
  apply (dann_upper_needs_a_string DemoEdge.library_numeric_target Demo.laptop
           "TARGET" (VInt 5)).
  - right. reflexivity.
  - intros s. discriminate.
  - in_list.
Defined.

Lemma subsets_keep_samples_witness :
  exists g,
    (run_deepdta Demo.library Demo.laptop).1 = Done g
    /\ keeps_samples 1000 (dta_valid_dataset g).
Proof.
  destruct (is_done_inv _ demo_deepdta_laptop_completes) as [g Hg].
  exists g. split; [exact Hg|].
  exact (proj1 (proj2 (subsets_keep_samples Demo.library Demo.laptop g
                         demo_randperm_permutes Hg))).
Defined.

Lemma failed_import_stops_before_config_witness :
  (run_dann DemoEdge.library_without_kale Demo.colab_gpu).1
  = Raised (Exception "ModuleNotFoundError" "No module named 'kale'")
  /\ reads (trace (run_dann DemoEdge.library_without_kale Demo.colab_gpu)) = [].
Proof.
  destruct (proj2 (failed_import_stops_before_config DemoEdge.library_without_kale
                     Demo.colab_gpu
                     (Exception "ModuleNotFoundError" "No module named 'kale'")) eq_refl)
    as (H1 & H2 & _).
  split; assumption.
Defined.
